(** * MCP_EXP: the chat client's tool-call loop and the weather tool

    A shallow embedding of [src/client.py] (the [MCPClient] methods
    [connect_to_server] and [process_query]) and of [src/weather.py]
    ([make_nws_request], [get_forecast]).

    Python values are a small tree type; exceptions are an explicit result
    type; every call that leaves the process (the MCP session, the OpenAI
    client, the HTTP client) is answered by an oracle and recorded in an
    event history, so that what was called, in which order and with which
    arguments can be stated. *)

From Stdlib Require Import String Ascii List ZArith Bool Arith Lia Floats DecimalString.
Import ListNotations.
Open Scope string_scope.

(** ** Python values and exceptions *)

Module Py.

(** JSON-shaped Python values: what [json.loads] and [response.json()]
    return, and what the message dictionaries are built from.  A [dict] is
    its list of items, in insertion order, keys distinct. *)
#[warnings="-register-all"]
Inductive value : Type :=
| PNone
| PBool (b : bool)
| PInt (n : Z)
| PFloat (f : float)
| PStr (s : string)
| PList (l : list value)
| PDict (items : list (string * value)).

Inductive exn : Type :=
| KeyError (key : string)
| TypeError
| IndexError
| ValueError (msg : string)
| JSONDecodeError
| OtherError (msg : string).

(** The outcome of an expression that may raise. *)
Inductive result (A : Type) : Type :=
| Ok (a : A)
| Raise (e : exn).
Arguments Ok {A} a.
Arguments Raise {A} e.

Definition bind {A B : Type} (r : result A) (k : A -> result B) : result B :=
  match r with
  | Ok a => k a
  | Raise e => Raise e
  end.

Declare Scope py_scope.
Delimit Scope py_scope with py.
Notation "x <- r ;; k" := (bind r (fun x => k))
  (at level 61, r at next level, right associativity) : py_scope.

(** [bool(v)]: the truth value tested by [if v] and [not v]. *)
Definition truthy (v : value) : bool :=
  match v with
  | PNone => false
  | PBool b => b
  | PInt n => negb (n =? 0)%Z
  | PFloat f => negb (PrimFloat.eqb f 0%float)
  | PStr s => negb (s =? "")
  | PList l => match l with [] => false | _ :: _ => true end
  | PDict d => match d with [] => false | _ :: _ => true end
  end.

Fixpoint dict_get (items : list (string * value)) (key : string) : option value :=
  match items with
  | [] => None
  | (k, v) :: rest => if k =? key then Some v else dict_get rest key
  end.

(** [v[key]] with a string key: a dict looks the key up, every other value
    raises [TypeError]. *)
Definition getitem (v : value) (key : string) : result value :=
  match v with
  | PDict items =>
      match dict_get items key with
      | Some x => Ok x
      | None => Raise (KeyError key)
      end
  | _ => Raise TypeError
  end.


(** [sep.join(parts)] *)
Fixpoint join (sep : string) (parts : list string) : string :=
  match parts with
  | [] => ""
  | x :: rest =>
      match rest with
      | [] => x
      | _ :: _ => x ++ sep ++ join sep rest
      end
  end.

(** [s.endswith(suffix)] *)
Definition endswith (s suffix : string) : bool :=
  let n := String.length s in
  let m := String.length suffix in
  (m <=? n)%nat && (substring (n - m) m s =? suffix).

Definition nl : string := String "010" EmptyString.

(** A [str] is held as its UTF-8 bytes; [utf8_chars] splits it into its
    characters (a byte [10xxxxxx] continues the character before it). *)
Definition is_continuation (c : ascii) : bool :=
  let n := nat_of_ascii c in (128 <=? n)%nat && (n <? 192)%nat.

Fixpoint utf8_chars_aux (cur : string) (s : string) : list string :=
  match s with
  | EmptyString => [cur]
  | String c rest =>
      if is_continuation c
      then utf8_chars_aux (cur ++ String c EmptyString) rest
      else cur :: utf8_chars_aux (String c EmptyString) rest
  end.

Definition utf8_chars (s : string) : list string :=
  match s with
  | EmptyString => []
  | String c rest => utf8_chars_aux (String c EmptyString) rest
  end.

(** The items that [for x in v[:5]] visits.  A list gives its first five
    elements, a [str] its first five characters; a dict is not sliceable
    ([TypeError]; [KeyError] from Python 3.12 on) and neither are the
    scalars. *)
Definition iter_slice5 (v : value) : result (list value) :=
  match v with
  | PList l => Ok (firstn 5 l)
  | PStr s => Ok (map PStr (firstn 5 (utf8_chars s)))
  | _ => Raise TypeError
  end.

End Py.

Import Py.
Open Scope py_scope.

(** ** weather.py *)

Module Weather.

Definition NWS_API_BASE : string := "https://api.weather.gov".
Definition USER_AGENT : string := "weather-app/1.0".

Section WithWorld.

(** [str(v)], as the f-strings apply it to the values they interpolate. *)
Variable py_str : value -> string.

(** The HTTP client: what the [n]-th request of a tool invocation
    ([client.get], then [raise_for_status], then [response.json()])
    yields for a URL and its headers, or the exception one of the three
    raises. *)
Variable http_get_json : nat -> string -> list (string * string) -> result value.

(** [make_nws_request(url)], as the [n]-th request.  The [except
    Exception] turns every failure into [None]; a [url] that is not a
    [str] is rejected by [client.get] inside the [try]. *)
Definition make_nws_request (n : nat) (url : value) : value :=
  let headers := [("User-Agent", USER_AGENT); ("Accept", "application/geo+json")] in
  match url with
  | PStr u =>
      match http_get_json n u headers with
      | Ok data => data
      | Raise _ => PNone
      end
  | _ => PNone
  end.

Definition degree : string := String "194" (String "176" EmptyString).

(** The f-string of the loop body of [get_forecast]. *)
Definition format_period (period : value) : result string :=
  name <- getitem period "name" ;;
  temperature <- getitem period "temperature" ;;
  temperatureUnit <- getitem period "temperatureUnit" ;;
  windSpeed <- getitem period "windSpeed" ;;
  windDirection <- getitem period "windDirection" ;;
  detailedForecast <- getitem period "detailedForecast" ;;
  Ok (nl ++ py_str name ++ ":" ++ nl
      ++ "Temperature: " ++ py_str temperature ++ degree ++ py_str temperatureUnit ++ nl
      ++ "Wind: " ++ py_str windSpeed ++ " " ++ py_str windDirection ++ nl
      ++ "Forecast: " ++ py_str detailedForecast ++ nl).

(** [for period in ...: forecasts.append(...)] *)
Fixpoint format_periods (periods : list value) (forecasts : list string)
  : result (list string) :=
  match periods with
  | [] => Ok forecasts
  | period :: rest =>
      text <- format_period period ;;
      format_periods rest (forecasts ++ [text])
  end.

(** [texts] are the formatted blocks of [periods], one per period, in order. *)
Definition formatted (periods : list value) (texts : list string) : Prop :=
  Forall2 (fun period text => format_period period = Ok text) periods texts.

Definition get_forecast (latitude longitude : float) : result string :=
  let points_url :=
    NWS_API_BASE ++ "/points/" ++ py_str (PFloat latitude) ++ ","
                 ++ py_str (PFloat longitude) in
  let points_data := make_nws_request 0 (PStr points_url) in
  if negb (truthy points_data)
  then Ok "Unable to fetch forecast data for this location."
  else
    properties <- getitem points_data "properties" ;;
    forecast_url <- getitem properties "forecast" ;;
    let forecast_data := make_nws_request 1 forecast_url in
    if negb (truthy forecast_data)
    then Ok "Unable to fetch detailed forecast."
    else
      properties <- getitem forecast_data "properties" ;;
      periods <- getitem properties "periods" ;;
      first5 <- iter_slice5 periods ;;
      forecasts <- format_periods first5 [] ;;
      Ok (join (nl ++ "---" ++ nl) forecasts).

(** The forecast response that [get_forecast] formats, when both
    requests deliver one: [Some forecast_data] exactly on the path that
    reaches step 3 of the source. *)
Definition fetched_forecast (latitude longitude : float) : option value :=
  let points_url :=
    NWS_API_BASE ++ "/points/" ++ py_str (PFloat latitude) ++ ","
                 ++ py_str (PFloat longitude) in
  let points_data := make_nws_request 0 (PStr points_url) in
  if negb (truthy points_data) then None
  else
    match (properties <- getitem points_data "properties" ;;
           getitem properties "forecast") with
    | Raise _ => None
    | Ok forecast_url =>
        let forecast_data := make_nws_request 1 forecast_url in
        if negb (truthy forecast_data) then None else Some forecast_data
    end.

End WithWorld.

End Weather.

(** ** client.py *)

Module Client.

(** A tool as [list_tools] describes it. *)
Module Tool.
Record t : Type := { name : string; description : option string; inputSchema : value }.
End Tool.

(** [tool_call.function] and [tool_call] of a chat completion. *)
Module Function.
Record t : Type := { name : string; arguments : string }.
End Function.

Module ToolCall.
Record t : Type := { id : string; function : Function.t }.
End ToolCall.

(** [completion.choices[i].message] *)
Module ChatMessage.
Record t : Type := { content : option string; tool_calls : option (list ToolCall.t) }.
End ChatMessage.

(** What [session.call_tool] returns. *)
Module CallToolResult.
Record t : Type := { content : value; isError : bool }.
End CallToolResult.

(** The calls that leave the process, and what is printed at connect time. *)
Inductive event : Type :=
| StdioClient (command : string) (args : list string)
| Initialize
| ListTools
| PrintTools (tool_names : list string)
| CallTool (name : string) (arguments : value)
| ChatCreate (model : string) (messages : list value)
             (tools : option (list value)) (tool_choice : option string).

(** The collaborators.  Each answer may depend on everything that happened
    before (the history, oldest event first) and on the arguments; a
    [Raise] is the exception the call raises.  [chat_create] answers with
    the messages of [completion.choices]; [json_loads] is [json.loads]. *)
Record world : Type := {
  stdio_client : list event -> string -> list string -> result unit;
  initialize : list event -> result unit;
  list_tools : list event -> result (list Tool.t);
  call_tool : list event -> string -> value -> result CallToolResult.t;
  chat_create : list event -> string -> list value -> option (list value)
                -> option string -> result (list ChatMessage.t);
  json_loads : string -> result value
}.

(** *** connect_to_server *)

Definition connect_to_server (w : world) (h : list event) (server_script_path : string)
  : list event * result unit :=
  let command :=
    if endswith server_script_path ".py" then Ok "python"
    else if endswith server_script_path ".js" then Ok "node"
    else Raise (ValueError "Server script must end in .py or .js") in
  match command with
  | Raise e => (h, Raise e)
  | Ok command =>
      let h1 := (h ++ [StdioClient command [server_script_path]])%list in
      match stdio_client w h command [server_script_path] with
      | Raise e => (h1, Raise e)
      | Ok _ =>
          let h2 := (h1 ++ [Initialize])%list in
          match initialize w h1 with
          | Raise e => (h2, Raise e)
          | Ok _ =>
              let h3 := (h2 ++ [ListTools])%list in
              match list_tools w h2 with
              | Raise e => (h3, Raise e)
              | Ok tools =>
                  let tool_names := map Tool.name tools in
                  ((h3 ++ [PrintTools tool_names])%list, Ok tt)
              end
          end
      end
  end.

(** *** process_query *)

Definition opt_str (s : option string) : value :=
  match s with
  | Some s => PStr s
  | None => PNone
  end.

(** The dictionary appended to [openai_tools] for one tool. *)
Definition openai_tool (tool : Tool.t) : value :=
  PDict [("type", PStr "function");
         ("function", PDict [("name", PStr (Tool.name tool));
                             ("description", opt_str (Tool.description tool));
                             ("parameters", Tool.inputSchema tool)])].

Definition user_entry (query : string) : value :=
  PDict [("role", PStr "user"); ("content", PStr query)].

(** The two dictionaries appended to [messages] for one tool call. *)
Definition assistant_entry (tool_call : ToolCall.t) : value :=
  let tool_name := Function.name (ToolCall.function tool_call) in
  let tool_args := Function.arguments (ToolCall.function tool_call) in
  PDict [("role", PStr "assistant");
         ("content", PNone);
         ("tool_calls",
          PList [PDict [("id", PStr (ToolCall.id tool_call));
                        ("type", PStr "function");
                        ("function", PDict [("name", PStr tool_name);
                                            ("arguments", PStr tool_args)])]])].

Definition tool_entry (tool_call : ToolCall.t) (result : CallToolResult.t) : value :=
  let tool_name := Function.name (ToolCall.function tool_call) in
  PDict [("role", PStr "tool");
         ("tool_call_id", PStr (ToolCall.id tool_call));
         ("name", PStr tool_name);
         ("content", CallToolResult.content result)].

(** [if assistant_message.content: final_text.append(assistant_message.content)] *)
Definition append_content (final_text : list string) (assistant_message : ChatMessage.t)
  : list string :=
  match ChatMessage.content assistant_message with
  | Some text => if text =? "" then final_text else (final_text ++ [text])%list
  | None => final_text
  end.

(** Where a query stands: the history of calls, the local [messages], and
    the value computed or the exception raised. *)
Record run (A : Type) : Type := {
  history : list event;
  messages : list value;
  outcome : result A
}.
Arguments history {A} r.
Arguments messages {A} r.
Arguments outcome {A} r.

Definition gpt_4o : string := "gpt-4o".

(** The [for tool_call in assistant_message.tool_calls] loop.  The list it
    walks is the one of the first response: rebinding [assistant_message]
    in the body does not change it. *)
Fixpoint tool_loop (w : world) (tool_calls : list ToolCall.t)
    (h : list event) (messages : list value) (final_text : list string)
  : run (list string) :=
  match tool_calls with
  | [] => {| history := h; messages := messages; outcome := Ok final_text |}
  | tool_call :: rest =>
      let tool_name := Function.name (ToolCall.function tool_call) in
      let tool_args := Function.arguments (ToolCall.function tool_call) in
      match json_loads w tool_args with
      | Raise e => {| history := h; messages := messages; outcome := Raise e |}
      | Ok parsed_args =>
          let h1 := (h ++ [CallTool tool_name parsed_args])%list in
          match call_tool w h tool_name parsed_args with
          | Raise e => {| history := h1; messages := messages; outcome := Raise e |}
          | Ok result =>
              let messages1 :=
                (messages ++ [assistant_entry tool_call; tool_entry tool_call result])%list in
              let h2 := (h1 ++ [ChatCreate gpt_4o messages1 None None])%list in
              match chat_create w h1 gpt_4o messages1 None None with
              | Raise e => {| history := h2; messages := messages1; outcome := Raise e |}
              | Ok [] => {| history := h2; messages := messages1; outcome := Raise IndexError |}
              | Ok (assistant_message :: _) =>
                  tool_loop w rest h2 messages1 (append_content final_text assistant_message)
              end
          end
      end
  end.

Definition process_query (w : world) (h : list event) (query : string) : run string :=
  let messages := [user_entry query] in
  let h1 := (h ++ [ListTools])%list in
  match list_tools w h with
  | Raise e => {| history := h1; messages := messages; outcome := Raise e |}
  | Ok tools =>
      let openai_tools := map openai_tool tools in
      let h2 := (h1 ++ [ChatCreate gpt_4o messages (Some openai_tools) (Some "auto")])%list in
      match chat_create w h1 gpt_4o messages (Some openai_tools) (Some "auto") with
      | Raise e => {| history := h2; messages := messages; outcome := Raise e |}
      | Ok [] => {| history := h2; messages := messages; outcome := Raise IndexError |}
      | Ok (assistant_message :: _) =>
          match ChatMessage.tool_calls assistant_message with
          | Some (tool_call :: rest) =>
              let r := tool_loop w (tool_call :: rest) h2 messages [] in
              {| history := history r;
                 messages := Client.messages r;
                 outcome := (final_text <- outcome r ;; Ok (join nl final_text)) |}
          | _ =>
              let final_text := append_content [] assistant_message in
              {| history := h2; messages := messages; outcome := Ok (join nl final_text) |}
          end
      end
  end.

(** The message of the first completion ([completion.choices[0].message]
    at line 138), when the query gets that far. *)
Definition first_response (w : world) (h : list event) (query : string)
  : option ChatMessage.t :=
  match list_tools w h with
  | Raise _ => None
  | Ok tools =>
      match chat_create w (h ++ [ListTools])%list gpt_4o [user_entry query]
                        (Some (map openai_tool tools)) (Some "auto") with
      | Ok (assistant_message :: _) => Some assistant_message
      | _ => None
      end
  end.

(** *** Reading a history and a conversation *)

Definition is_chat_create (e : event) : bool :=
  match e with ChatCreate _ _ _ _ => true | _ => false end.

Definition is_call_tool (e : event) : bool :=
  match e with CallTool _ _ => true | _ => false end.

Definition is_list_tools (e : event) : bool :=
  match e with ListTools => true | _ => false end.

Definition count {A : Type} (f : A -> bool) (l : list A) : nat := length (filter f l).

(** The events a call added to the history [h] it started from. *)
Definition since {A : Type} (h : list event) (r : run A) : list event :=
  skipn (length h) (history r).

(** The model calls after the first one of a query. *)
Definition follow_ups (events : list event) : list event :=
  tl (filter is_chat_create events).

Definition has_role (role : string) (m : value) : bool :=
  match getitem m "role" with
  | Ok (PStr r) => r =? role
  | _ => false
  end.

(** The call ids an assistant message requests, in order. *)
Definition requested_ids (m : value) : list string :=
  if has_role "assistant" m then
    match getitem m "tool_calls" with
    | Ok (PList calls) =>
        flat_map (fun c => match getitem c "id" with Ok (PStr i) => [i] | _ => [] end) calls
    | _ => []
    end
  else [].

(** The call id a tool message answers. *)
Definition answered_id (m : value) : option string :=
  if has_role "tool" m then
    match getitem m "tool_call_id" with
    | Ok (PStr i) => Some i
    | _ => None
    end
  else None.

Definition answers (i : string) (m : value) : bool :=
  match answered_id m with
  | Some j => j =? i
  | None => false
  end.

(** Every requested call id is answered by a later tool message. *)
Fixpoint all_answered (msgs : list value) : bool :=
  match msgs with
  | [] => true
  | m :: rest =>
      forallb (fun i => existsb (answers i) rest) (requested_ids m) && all_answered rest
  end.

(** Every model call of a history was sent a conversation in which all
    requested calls are answered. *)
Definition requests_answered (events : list event) : bool :=
  forallb (fun e => match e with
                    | ChatCreate _ msgs _ _ => all_answered msgs
                    | _ => true
                    end) events.

(** The call ids that the tool messages of a conversation answer, in order. *)
Definition answered_ids (msgs : list value) : list string :=
  flat_map (fun m => match answered_id m with Some i => [i] | None => [] end) msgs.

(** The first model call of a query: the conversation is the user's
    message alone, and the translated tools go with it. *)
Definition first_request (tools : list Tool.t) (query : string) : event :=
  ChatCreate gpt_4o [user_entry query] (Some (map openai_tool tools)) (Some "auto").

(** The model calls and tool calls of a history, in order. *)
Definition exchanges (events : list event) : list event :=
  filter (fun e => is_chat_create e || is_call_tool e) events.

(** The exchanges of a query are a first model call, then [n] tool calls
    and nothing else, then one last model call. *)
Definition single_follow_up (n : nat) (events : list event) : bool :=
  match exchanges events with
  | [] => false
  | first :: rest =>
      is_chat_create first
      && (length rest =? n + 1)%nat
      && forallb is_call_tool (firstn n rest)
      && forallb is_chat_create (skipn n rest)
  end.


(** One completed pass through the loop body: the call, its parsed
    arguments and the result of the tool. *)
Record step : Type := {
  step_call : ToolCall.t;
  step_args : value;
  step_result : CallToolResult.t
}.

(** The arguments of a pass are what [json.loads] made of the call's text. *)
Definition parsed_by (w : world) (s : step) : Prop :=
  json_loads w (Function.arguments (ToolCall.function (step_call s))) = Ok (step_args s).

(** The messages that completed passes append. *)
Definition entries (steps : list step) : list value :=
  flat_map (fun s => [assistant_entry (step_call s); tool_entry (step_call s) (step_result s)])
           steps.

(** The events of completed passes that started from the conversation
    [msgs]: each pass is one [CallTool] directly followed by one
    [ChatCreate] on the conversation extended by its two messages. *)
Fixpoint round_events (msgs : list value) (steps : list step) : list event :=
  match steps with
  | [] => []
  | s :: rest =>
      let msgs1 :=
        (msgs ++ [assistant_entry (step_call s); tool_entry (step_call s) (step_result s)])%list in
      CallTool (Function.name (ToolCall.function (step_call s))) (step_args s)
        :: ChatCreate gpt_4o msgs1 None None
        :: round_events msgs1 rest
  end.

End Client.

(** ** Sample collaborators

    Concrete worlds on which the definitions above are evaluated.  Their
    [json_loads] and [sample_str] are tables: they agree with [json.loads]
    and [str] on the few values the sample runs meet. *)

Module Samples.
Import Client.

Definition quote : string := String "034" EmptyString.

(** The text [{"state": "<code>"}]. *)
Definition state_args (code : string) : string :=
  "{" ++ quote ++ "state" ++ quote ++ ": " ++ quote ++ code ++ quote ++ "}".

(** A truncated object, which [json.loads] rejects. *)
Definition malformed_args : string := "{" ++ quote ++ "state" ++ quote ++ ": ".

Definition sample_json_loads (s : string) : result value :=
  if s =? state_args "CA" then Ok (PDict [("state", PStr "CA")])
  else if s =? state_args "NY" then Ok (PDict [("state", PStr "NY")])
  else Raise JSONDecodeError.

Definition get_alerts_tool : Tool.t :=
  {| Tool.name := "get_alerts";
     Tool.description := Some "Fetch active weather alerts for a given US state.";
     Tool.inputSchema :=
       PDict [("type", PStr "object");
              ("properties", PDict [("state", PDict [("type", PStr "string")])]);
              ("required", PList [PStr "state"])] |}.

Definition alerts_call (id code_args : string) : ToolCall.t :=
  {| ToolCall.id := id;
     ToolCall.function := {| Function.name := "get_alerts"; Function.arguments := code_args |} |}.

Definition call_CA : ToolCall.t := alerts_call "call_1" (state_args "CA").
Definition call_NY : ToolCall.t := alerts_call "call_2" (state_args "NY").
Definition call_bad_1 : ToolCall.t := alerts_call "call_1" malformed_args.
Definition call_bad_2 : ToolCall.t := alerts_call "call_2" malformed_args.

Definition text_block (text : string) : value :=
  PList [PDict [("type", PStr "text"); ("text", PStr text)]].

Definition no_alerts : CallToolResult.t :=
  {| CallToolResult.content := text_block "No active alerts for this state.";
     CallToolResult.isError := false |}.


(** A world whose model answers the first request (the one that carries
    tool schemas) with [first], and every later request with a text that
    tells how long the conversation was; whose tool always returns
    [tool_result]. *)
Definition scripted (first : ChatMessage.t) (tool_result : CallToolResult.t) : world :=
  {| stdio_client := fun _ _ _ => Ok tt;
     initialize := fun _ => Ok tt;
     list_tools := fun _ => Ok [get_alerts_tool];
     call_tool := fun _ _ _ => Ok tool_result;
     chat_create := fun _ _ msgs tools _ =>
       match tools with
       | Some _ => Ok [first]
       | None =>
           Ok [{| ChatMessage.content :=
                    Some (if (length msgs <=? 3)%nat then "No alerts in CA." else "No alerts in NY.");
                  ChatMessage.tool_calls := None |}]
       end;
     json_loads := sample_json_loads |}.

Definition asks (calls : list ToolCall.t) : ChatMessage.t :=
  {| ChatMessage.content := None; ChatMessage.tool_calls := Some calls |}.

Definition says (text : option string) : ChatMessage.t :=
  {| ChatMessage.content := text; ChatMessage.tool_calls := None |}.

Definition one_call : world := scripted (asks [call_CA]) no_alerts.
Definition two_calls : world := scripted (asks [call_CA; call_NY]) no_alerts.
Definition bad_first : world := scripted (asks [call_bad_1; call_NY]) no_alerts.
Definition bad_second : world := scripted (asks [call_CA; call_bad_2]) no_alerts.
Definition plain_answer : world := scripted (says (Some "Hello!")) no_alerts.
Definition silent : world := scripted (says None) no_alerts.

Definition question : string := "Any weather alerts for CA and NY?".

(** *** A forecast of seven periods, the last one malformed *)

Definition period (name : string) (temperature : Z) : value :=
  PDict [("name", PStr name);
         ("temperature", PInt temperature);
         ("temperatureUnit", PStr "F");
         ("windSpeed", PStr "5 mph");
         ("windDirection", PStr "W");
         ("detailedForecast", PStr "Clear.")].

Definition sample_periods : list value :=
  [period "Tonight" 55; period "Monday" 71; period "Monday Night" 54;
   period "Tuesday" 73; period "Tuesday Night" 56; period "Wednesday" 70; PNone].

Definition latitude : float := 37.75%float.
Definition longitude : float := (-122.5)%float.

Definition sample_str (v : value) : string :=
  match v with
  | PNone => "None"
  | PBool b => if b then "True" else "False"
  | PInt n => NilZero.string_of_int (Z.to_int n)
  | PFloat f =>
      if PrimFloat.eqb f latitude then "37.75"
      else if PrimFloat.eqb f longitude then "-122.5"
      else "nan"
  | PStr s => s
  | PList _ => "[...]"
  | PDict _ => "{...}"
  end.

Definition forecast_url : string := "https://api.weather.gov/gridpoints/MTR/85,105/forecast".

Definition sample_http (n : nat) (url : string) (headers : list (string * string))
  : result value :=
  if url =? "https://api.weather.gov/points/37.75,-122.5"
  then Ok (PDict [("properties", PDict [("forecast", PStr forecast_url)])])
  else if url =? forecast_url
  then Ok (PDict [("properties", PDict [("periods", PList sample_periods)])])
  else Raise (OtherError "404 Not Found").

End Samples.

(** ** More of Python: membership, iteration, [dict.get] *)

Module PyMore.

Definition AttributeError : exn := OtherError "AttributeError".
Definition EOFError : exn := OtherError "EOFError".

(** Whether [except Exception] catches the exception.  An [OtherError]
    carries the name of its class; the classes that are not below
    [Exception] are those of the interpreter's exits and of a cancelled
    task. *)
Definition is_exception (e : exn) : bool :=
  match e with
  | OtherError class =>
      negb (existsb (String.eqb class)
                    ["CancelledError"; "KeyboardInterrupt"; "SystemExit"; "GeneratorExit"])
  | _ => true
  end.

(** [v.get(key, default)]: only a dict has the method. *)
Definition get_default (v : value) (key : string) (default : value) : result value :=
  match v with
  | PDict items =>
      Ok (match dict_get items key with
          | Some x => x
          | None => default
          end)
  | _ => Raise AttributeError
  end.

(** [key in v] for a string [key]: a key of a dict, an element of a list,
    a substring of a [str]; the scalars are not containers. *)
Definition contains (v : value) (key : string) : result bool :=
  match v with
  | PDict items =>
      Ok (match dict_get items key with Some _ => true | None => false end)
  | PList l =>
      Ok (existsb (fun x => match x with PStr s => s =? key | _ => false end) l)
  | PStr s =>
      Ok (match index 0 key s with Some _ => true | None => false end)
  | _ => Raise TypeError
  end.

(** The items that [for x in v] visits: the elements of a list, the
    characters of a [str], the keys of a dict. *)
Definition iterate (v : value) : result (list value) :=
  match v with
  | PList l => Ok l
  | PStr s => Ok (map PStr (utf8_chars s))
  | PDict items => Ok (map (fun kv => PStr (fst kv)) items)
  | _ => Raise TypeError
  end.

(** [[f(x) for x in l]], where [f] may raise: the first exception ends it. *)
Fixpoint traverse {A B : Type} (f : A -> result B) (l : list A) : result (list B) :=
  match l with
  | [] => Ok []
  | x :: rest =>
      y <- f x ;;
      ys <- traverse f rest ;;
      Ok (y :: ys)
  end.

End PyMore.

Import PyMore.

(** ** weather.py: the alerts tool *)

Module Alerts.
Import Weather.

Section WithWorld.

Variable py_str : value -> string.

(** [state.upper()] *)
Variable py_upper : string -> string.

Variable http_get_json : nat -> string -> list (string * string) -> result value.

Definition format_alert (feature : value) : result string :=
  props <- getitem feature "properties" ;;
  event <- get_default props "event" (PStr "Unknown") ;;
  areaDesc <- get_default props "areaDesc" (PStr "Unknown") ;;
  severity <- get_default props "severity" (PStr "Unknown") ;;
  description <- get_default props "description" (PStr "No description available") ;;
  instruction <- get_default props "instruction"
                             (PStr "No specific instructions provided") ;;
  Ok (nl ++ "Event: " ++ py_str event ++ nl
      ++ "Area: " ++ py_str areaDesc ++ nl
      ++ "Severity: " ++ py_str severity ++ nl
      ++ "Description: " ++ py_str description ++ nl
      ++ "Instructions: " ++ py_str instruction ++ nl).

Definition alerts_url (state : string) : string :=
  NWS_API_BASE ++ "/alerts/active/area/" ++ py_upper state.

Definition get_alerts (state : string) : result string :=
  let url := alerts_url state in
  let data := make_nws_request http_get_json 0 (PStr url) in
  unavailable <- (if negb (truthy data) then Ok true
                  else present <- contains data "features" ;; Ok (negb present)) ;;
  if unavailable : bool
  then Ok "Unable to fetch alerts or no alerts found."
  else
    features <- getitem data "features" ;;
    if negb (truthy features)
    then Ok "No active alerts for this state."
    else
      features <- getitem data "features" ;;
      items <- iterate features ;;
      alerts <- traverse format_alert items ;;
      Ok (join (nl ++ "---" ++ nl) alerts).

(** The text of one field of an alert: the value under [key] when the
    properties have the key, the fallback otherwise. *)
Definition field_text (items : list (string * value)) (key fallback : string) : string :=
  match dict_get items key with
  | Some x => py_str x
  | None => fallback
  end.

(** The block of an alert whose properties are the dict [items]. *)
Definition alert_block (items : list (string * value)) : string :=
  nl ++ "Event: " ++ field_text items "event" (py_str (PStr "Unknown")) ++ nl
  ++ "Area: " ++ field_text items "areaDesc" (py_str (PStr "Unknown")) ++ nl
  ++ "Severity: " ++ field_text items "severity" (py_str (PStr "Unknown")) ++ nl
  ++ "Description: "
  ++ field_text items "description" (py_str (PStr "No description available")) ++ nl
  ++ "Instructions: "
  ++ field_text items "instruction" (py_str (PStr "No specific instructions provided"))
  ++ nl.

(** The alert features, each with the dict under its [properties]. *)
Definition with_properties (features : list value)
    (props : list (list (string * value))) : Prop :=
  Forall2 (fun feature items => getitem feature "properties" = Ok (PDict items))
          features props.

End WithWorld.

(** The keys a forecast period is read at, in the order of the f-string. *)
Definition forecast_fields : list string :=
  ["name"; "temperature"; "temperatureUnit"; "windSpeed"; "windDirection";
   "detailedForecast"].

End Alerts.

(** ** The text of a forecast, described from the fields of its periods *)

Module ForecastText.

Section WithStr.

Variable py_str : value -> string.

(** The block of the period whose dict is [items]: its name, its
    temperature followed by the degree sign (U+00B0, two bytes) and the
    unit, its wind, its detailed forecast, each on its line. *)
Definition period_block (items : list (string * value)) : string :=
  nl ++ Alerts.field_text py_str items "name" "" ++ ":" ++ nl
  ++ "Temperature: " ++ Alerts.field_text py_str items "temperature" ""
  ++ String "194" (String "176" EmptyString)
  ++ Alerts.field_text py_str items "temperatureUnit" "" ++ nl
  ++ "Wind: " ++ Alerts.field_text py_str items "windSpeed" "" ++ " "
  ++ Alerts.field_text py_str items "windDirection" "" ++ nl
  ++ "Forecast: " ++ Alerts.field_text py_str items "detailedForecast" "" ++ nl.

End WithStr.

(** The dict has the six fields of a period. *)
Definition has_fields (items : list (string * value)) : bool :=
  forallb (fun key => match dict_get items key with Some _ => true | None => false end)
          Alerts.forecast_fields.

End ForecastText.

(** ** client.py: the chat loop and the entry point *)

Module Chat.
Import Client.

(** What the program writes to the terminal, one item per [print]
    (the tool names printed while connecting are the [PrintTools] event). *)
Inductive printed : Type :=
| SayUsage
| SayExample
| SayStarted
| SayHint
| SayAssistant (response : string)
| SayError (e : exn).

Record session : Type := {
  s_history : list event;
  s_printed : list printed;
  s_outcome : result unit
}.

Section WithInput.

(** [s.strip()] and [s.lower()] *)
Variable py_strip : string -> string.
Variable py_lower : string -> string.

Definition is_quit (line : string) : bool := py_lower (py_strip line) =? "quit".

(** The [try] of the loop body: the answer is printed, or the exception. *)
Definition reply (r : result string) : printed :=
  match r with
  | Ok response => SayAssistant response
  | Raise e => SayError e
  end.

(** The [while True] loop over the lines that [input] will deliver; when
    they are used up, [input] raises [EOFError], outside the [try].  The
    [except Exception] prints what it catches and the loop goes on; an
    exception it does not catch leaves the loop. *)
Fixpoint chat_loop_from (w : world) (lines : list string)
    (h : list event) (out : list printed) : session :=
  match lines with
  | [] => {| s_history := h; s_printed := out; s_outcome := Raise EOFError |}
  | line :: rest =>
      let query := py_strip line in
      if py_lower query =? "quit"
      then {| s_history := h; s_printed := out; s_outcome := Ok tt |}
      else
        let r := process_query w h query in
        match outcome r with
        | Ok response =>
            chat_loop_from w rest (history r) (out ++ [SayAssistant response])%list
        | Raise e =>
            if is_exception e
            then chat_loop_from w rest (history r) (out ++ [SayError e])%list
            else {| s_history := history r; s_printed := out; s_outcome := Raise e |}
        end
  end.

Definition chat_loop (w : world) (h : list event) (lines : list string) : session :=
  chat_loop_from w lines h [SayStarted; SayHint].

(** How [main] ends. *)
Inductive ending : Type :=
| Returned
| SystemExit (code : Z)
| Uncaught (e : exn).

(** A run of the program; [p_cleanups] counts the calls of [cleanup]. *)
Record program : Type := {
  p_history : list event;
  p_printed : list printed;
  p_cleanups : nat;
  p_ending : ending
}.

(** [main], for the command line [argv] and the lines typed. *)
Definition main (w : world) (argv : list string) (lines : list string) : program :=
  if (length argv <? 2)%nat
  then {| p_history := []; p_printed := [SayUsage; SayExample];
          p_cleanups := 0; p_ending := SystemExit 1 |}
  else
    let path := nth 1 argv "" in
    match connect_to_server w [] path with
    | (h, Raise e) =>
        {| p_history := h; p_printed := []; p_cleanups := 1; p_ending := Uncaught e |}
    | (h, Ok _) =>
        let s := chat_loop w h lines in
        {| p_history := s_history s;
           p_printed := s_printed s;
           p_cleanups := 1;
           p_ending := match s_outcome s with
                       | Ok _ => Returned
                       | Raise e => Uncaught e
                       end |}
    end.

(** The history after the queries of a list, asked one after the other. *)
Fixpoint after_queries (w : world) (queries : list string) (h : list event)
  : list event :=
  match queries with
  | [] => h
  | query :: rest => after_queries w rest (history (process_query w h query))
  end.

(** Every one of them returns or raises what [except Exception] catches. *)
Fixpoint all_caught (w : world) (queries : list string) (h : list event) : bool :=
  match queries with
  | [] => true
  | query :: rest =>
      match outcome (process_query w h query) with
      | Ok _ => true
      | Raise e => is_exception e
      end
      && all_caught w rest (history (process_query w h query))
  end.

(** What is printed for them. *)
Fixpoint replies (w : world) (queries : list string) (h : list event)
  : list printed :=
  match queries with
  | [] => []
  | query :: rest =>
      reply (outcome (process_query w h query))
        :: replies w rest (history (process_query w h query))
  end.

End WithInput.

End Chat.

(** ** More of the client: observations on a run *)

Module Observe.
Import Client.

(** The world that differs from [w] only in that a response to a request
    carrying tool schemas has no text. *)
Definition first_text_dropped (w : world) : world :=
  {| stdio_client := stdio_client w;
     initialize := initialize w;
     list_tools := list_tools w;
     call_tool := call_tool w;
     chat_create := fun h model msgs tools tool_choice =>
       match tools with
       | Some _ =>
           choices <- chat_create w h model msgs tools tool_choice ;;
           Ok (match choices with
               | [] => []
               | m :: others =>
                   {| ChatMessage.content := None;
                      ChatMessage.tool_calls := ChatMessage.tool_calls m |} :: others
               end)
       | None => chat_create w h model msgs tools tool_choice
       end;
     json_loads := json_loads w |}.

(** The conversations sent with the model calls of a history. *)
Definition conversations (events : list event) : list (list value) :=
  flat_map (fun e => match e with
                     | ChatCreate _ msgs _ _ => [msgs]
                     | _ => []
                     end) events.

(** The tool calls that the first response of a query asks for. *)
Definition requested_calls (w : world) (h : list event) (query : string)
  : list ToolCall.t :=
  match first_response w h query with
  | Some m =>
      match ChatMessage.tool_calls m with
      | Some calls => calls
      | None => []
      end
  | None => []
  end.

(** A model call without tool schemas and without a tool choice. *)
Definition is_bare_create (e : event) : bool :=
  match e with
  | ChatCreate model _ None None => model =? gpt_4o
  | _ => false
  end.

(** The text that a response adds to the answer: its content, unless it
    is absent or empty. *)
Definition response_text (m : ChatMessage.t) : list string :=
  match ChatMessage.content m with
  | Some text => if text =? "" then [] else [text]
  | None => []
  end.

(** The tool names of the tool calls of a history. *)
Definition dispatched_names (events : list event) : list string :=
  flat_map (fun e => match e with
                     | CallTool name _ => [name]
                     | _ => []
                     end) events.

End Observe.

(** ** More sample collaborators *)

Module MoreSamples.

Definition is_space (c : ascii) : bool :=
  let n := nat_of_ascii c in (n =? 32)%nat || ((9 <=? n)%nat && (n <=? 13)%nat).

Fixpoint lstrip (s : string) : string :=
  match s with
  | EmptyString => EmptyString
  | String c rest => if is_space c then lstrip rest else s
  end.

Fixpoint rstrip (s : string) : string :=
  match s with
  | EmptyString => EmptyString
  | String c rest =>
      let rest' := rstrip rest in
      if is_space c && (rest' =? "") then EmptyString else String c rest'
  end.

(** [strip], [lower] and [upper] on ASCII text. *)
Definition ascii_strip (s : string) : string := rstrip (lstrip s).

Definition lower_char (c : ascii) : ascii :=
  let n := nat_of_ascii c in
  if (65 <=? n)%nat && (n <=? 90)%nat then ascii_of_nat (n + 32) else c.

Definition upper_char (c : ascii) : ascii :=
  let n := nat_of_ascii c in
  if (97 <=? n)%nat && (n <=? 122)%nat then ascii_of_nat (n - 32) else c.

Fixpoint map_chars (f : ascii -> ascii) (s : string) : string :=
  match s with
  | EmptyString => EmptyString
  | String c rest => String (f c) (map_chars f rest)
  end.

Definition ascii_lower (s : string) : string := map_chars lower_char s.
Definition ascii_upper (s : string) : string := map_chars upper_char s.

(** Two alerts: the first with all its fields, the second with a
    description that is [null] and nothing else. *)
Definition flood_warning : value :=
  PDict [("properties",
          PDict [("event", PStr "Flood Warning");
                 ("areaDesc", PStr "Sacramento");
                 ("severity", PStr "Severe");
                 ("description", PStr "River rising.");
                 ("instruction", PStr "Move to higher ground.")])].

Definition bare_alert : value :=
  PDict [("properties", PDict [("description", PNone)])].

Definition alerts_http (features : value) (n : nat) (url : string)
    (headers : list (string * string)) : result value :=
  if url =? "https://api.weather.gov/alerts/active/area/CA"
  then Ok (PDict [("type", PStr "FeatureCollection"); ("features", features)])
  else Raise (OtherError "404 Not Found").



Definition forecast_http (periods : value) (n : nat) (url : string)
    (headers : list (string * string)) : result value :=
  if url =? "https://api.weather.gov/points/37.75,-122.5"
  then Ok (PDict [("properties", PDict [("forecast", PStr Samples.forecast_url)])])
  else if url =? Samples.forecast_url
  then Ok (PDict [("properties", PDict [("periods", periods)])])
  else Raise (OtherError "404 Not Found").

(** The fields of [Samples.period]. *)
Definition period_items (name : string) (temperature : Z) : list (string * value) :=
  [("name", PStr name);
   ("temperature", PInt temperature);
   ("temperatureUnit", PStr "F");
   ("windSpeed", PStr "5 mph");
   ("windDirection", PStr "W");
   ("detailedForecast", PStr "Clear.")].

(** A period without its wind direction. *)
Definition windless : value :=
  PDict [("name", PStr "Thursday");
         ("temperature", PInt 68);
         ("temperatureUnit", PStr "F");
         ("windSpeed", PStr "5 mph");
         ("detailedForecast", PStr "Calm.")].

(** A world whose tool raises, and one whose model fails on follow-ups. *)
Definition broken_tool : Client.world :=
  {| Client.stdio_client := fun _ _ _ => Ok tt;
     Client.initialize := fun _ => Ok tt;
     Client.list_tools := fun _ => Ok [Samples.get_alerts_tool];
     Client.call_tool := fun _ _ _ => Raise (OtherError "McpError");
     Client.chat_create := Client.chat_create Samples.two_calls;
     Client.json_loads := Samples.sample_json_loads |}.

Definition broken_follow_up : Client.world :=
  {| Client.stdio_client := fun _ _ _ => Ok tt;
     Client.initialize := fun _ => Ok tt;
     Client.list_tools := fun _ => Ok [Samples.get_alerts_tool];
     Client.call_tool := fun _ _ _ => Ok Samples.no_alerts;
     Client.chat_create := fun h model msgs tools tool_choice =>
       match tools with
       | Some _ => Client.chat_create Samples.two_calls h model msgs tools tool_choice
       | None => Raise (OtherError "RateLimitError")
       end;
     Client.json_loads := Samples.sample_json_loads |}.

(** A world whose transport cannot be started. *)
Definition no_server : Client.world :=
  {| Client.stdio_client := fun _ _ _ => Raise (OtherError "FileNotFoundError");
     Client.initialize := fun _ => Ok tt;
     Client.list_tools := fun _ => Ok [Samples.get_alerts_tool];
     Client.call_tool := fun _ _ _ => Ok Samples.no_alerts;
     Client.chat_create := Client.chat_create Samples.one_call;
     Client.json_loads := Samples.sample_json_loads |}.

(** A world in which the task is cancelled during the model call. *)
Definition cancelled : Client.world :=
  {| Client.stdio_client := fun _ _ _ => Ok tt;
     Client.initialize := fun _ => Ok tt;
     Client.list_tools := fun _ => Ok [Samples.get_alerts_tool];
     Client.call_tool := fun _ _ _ => Ok Samples.no_alerts;
     Client.chat_create := fun _ _ _ _ _ => Raise (OtherError "CancelledError");
     Client.json_loads := Samples.sample_json_loads |}.

(** A first response with both a text and tool calls. *)
Definition chatty : Client.world :=
  Samples.scripted
    {| Client.ChatMessage.content := Some "Let me look that up.";
       Client.ChatMessage.tool_calls := Some [Samples.call_CA; Samples.call_NY] |}
    Samples.no_alerts.

End MoreSamples.

(** ** Properties of the weather tool *)

Module WeatherFacts.
Import Weather.

Section WithWorld.

Variable py_str : value -> string.
Variable http_get_json : nat -> string -> list (string * string) -> result value.

Lemma format_periods_app (periods : list value) :
  forall (texts acc : list string),
    formatted py_str periods texts ->
    format_periods py_str periods acc = Ok (acc ++ texts)%list.
Proof.
  induction periods as [|p rest IH]; intros texts acc H; inversion H; subst; simpl.
  - now rewrite app_nil_r.
  - match goal with E : format_period py_str p = Ok _ |- _ => rewrite E end.
    simpl. erewrite IH by eassumption.
    now rewrite <- app_assoc.
Qed.

Lemma format_period_block (items : list (string * value)) :
  ForecastText.has_fields items = true ->
  format_period py_str (PDict items) = Ok (ForecastText.period_block py_str items).
Proof.
  unfold ForecastText.has_fields, Alerts.forecast_fields. cbn [forallb].
  unfold format_period, getitem, ForecastText.period_block, Alerts.field_text.
  destruct (dict_get items "name"); [|discriminate].
  destruct (dict_get items "temperature"); [|discriminate].
  destruct (dict_get items "temperatureUnit"); [|discriminate].
  destruct (dict_get items "windSpeed"); [|discriminate].
  destruct (dict_get items "windDirection"); [|discriminate].
  destruct (dict_get items "detailedForecast"); [|discriminate].
  reflexivity.
Qed.

Lemma formatted_blocks (dicts : list (list (string * value))) :
  forallb ForecastText.has_fields dicts = true ->
  formatted py_str (map PDict dicts) (map (ForecastText.period_block py_str) dicts).
Proof.
  induction dicts as [|items rest IH]; intros H; [constructor|].
  cbn [forallb] in H. apply andb_true_iff in H as [Hitems Hrest].
  constructor; [now apply format_period_block | now apply IH].
Qed.

Lemma fetched_forecast_step3 (latitude longitude : float) (forecast_data : value) :
  fetched_forecast py_str http_get_json latitude longitude = Some forecast_data ->
  get_forecast py_str http_get_json latitude longitude =
    (properties <- getitem forecast_data "properties" ;;
     periods <- getitem properties "periods" ;;
     first5 <- iter_slice5 periods ;;
     forecasts <- format_periods py_str first5 [] ;;
     Ok (join (nl ++ "---" ++ nl) forecasts)).
Proof.
  unfold fetched_forecast, get_forecast.
  destruct (negb (truthy (make_nws_request http_get_json 0 _))); [discriminate|].
  destruct (getitem (make_nws_request http_get_json 0 _) "properties") as [props|e];
    simpl; [|discriminate].
  destruct (getitem props "forecast") as [url|e]; simpl; [|discriminate].
  destruct (negb (truthy (make_nws_request http_get_json 1 url))); [discriminate|].
  now intros [= <-].
Qed.

(** C10. Whenever both requests deliver a forecast response whose
    [properties.periods] is a list, of any length, whose first five
    periods (all of them when there are fewer) are dicts with the six
    fields, [get_forecast] returns the blocks of exactly these periods, in
    the order of the response, joined by the separator line: each block
    shows the name, temperature and unit, wind and detailed forecast of
    its period.  The periods after the fifth are not in the answer and
    have no influence; they need not even be well formed. *)
Theorem get_forecast_first_five
    (latitude longitude : float) (forecast_data properties : value)
    (periods : list value) (first_five : list (list (string * value))) :
  fetched_forecast py_str http_get_json latitude longitude = Some forecast_data ->
  getitem forecast_data "properties" = Ok properties ->
  getitem properties "periods" = Ok (PList periods) ->
  firstn 5 periods = map PDict first_five ->
  forallb ForecastText.has_fields first_five = true ->
  get_forecast py_str http_get_json latitude longitude
    = Ok (join (nl ++ "---" ++ nl) (map (ForecastText.period_block py_str) first_five))
  /\ length first_five = Nat.min 5 (length periods)
  /\ length first_five <= 5.
Proof.
  intros Hfetch Hprops Hperiods Hfirst Hfields.
  rewrite (fetched_forecast_step3 _ _ _ Hfetch), Hprops.
  cbv beta iota delta [bind]. rewrite Hperiods.
  cbv beta iota delta [bind iter_slice5]. rewrite Hfirst.
  rewrite (format_periods_app _ _ [] (formatted_blocks _ Hfields)).
  cbv beta iota delta [app].
  assert (L : length first_five = Nat.min 5 (length periods))
    by (rewrite <- (length_map PDict first_five), <- Hfirst; apply length_firstn).
  repeat split; [exact L | lia].
Qed.

End WithWorld.

(** The first block of the sample forecast, as the f-string lays it out. *)
Example format_period_tonight :
  format_period Samples.sample_str (Samples.period "Tonight" 55)
  = Ok (nl ++ "Tonight:" ++ nl
        ++ "Temperature: 55" ++ degree ++ "F" ++ nl
        ++ "Wind: 5 mph W" ++ nl
        ++ "Forecast: Clear." ++ nl).
Proof. reflexivity. Qed.

(** The block of a period, spelled out on the fields of a sample. *)
Example period_block_tonight :
  ForecastText.period_block Samples.sample_str (MoreSamples.period_items "Tonight" 55)
  = nl ++ "Tonight:" ++ nl
    ++ "Temperature: 55" ++ String "194" (String "176" EmptyString) ++ "F" ++ nl
    ++ "Wind: 5 mph W" ++ nl
    ++ "Forecast: Clear." ++ nl.
Proof. reflexivity. Qed.

(** The sample forecast has seven periods, the seventh not even a dict:
    the answer is the five blocks of Tonight to Tuesday Night, and
    Wednesday is not in it. *)
Lemma get_forecast_first_five_sample :
  get_forecast Samples.sample_str Samples.sample_http Samples.latitude Samples.longitude
  = Ok (let block := fun name temperature : string =>
                       nl ++ name ++ ":" ++ nl
                       ++ "Temperature: " ++ temperature
                       ++ String "194" (String "176" EmptyString) ++ "F" ++ nl
                       ++ "Wind: 5 mph W" ++ nl
                       ++ "Forecast: Clear." ++ nl in
        let line := nl ++ "---" ++ nl in
        block "Tonight" "55" ++ line ++ block "Monday" "71" ++ line
        ++ block "Monday Night" "54" ++ line ++ block "Tuesday" "73" ++ line
        ++ block "Tuesday Night" "56").
Proof.
  exact (proj1 (get_forecast_first_five Samples.sample_str Samples.sample_http
                  Samples.latitude Samples.longitude
                  (PDict [("properties", PDict [("periods", PList Samples.sample_periods)])])
                  (PDict [("periods", PList Samples.sample_periods)])
                  Samples.sample_periods
                  [MoreSamples.period_items "Tonight" 55;
                   MoreSamples.period_items "Monday" 71;
                   MoreSamples.period_items "Monday Night" 54;
                   MoreSamples.period_items "Tuesday" 73;
                   MoreSamples.period_items "Tuesday Night" 56]
                  eq_refl eq_refl eq_refl eq_refl eq_refl)).
Defined.

End WeatherFacts.

(** ** Properties of the client *)

Module ClientFacts.
Import Client.

(** *** Lists, histories *)

Lemma count_app {A : Type} (f : A -> bool) (l1 l2 : list A) :
  count f (l1 ++ l2) = count f l1 + count f l2.
Proof. unfold count. now rewrite filter_app, length_app. Qed.

Lemma since_app {A : Type} (h events : list event) (r : run A) :
  history r = (h ++ events)%list -> since h r = events.
Proof.
  intros E. unfold since. rewrite E, skipn_app, skipn_all, Nat.sub_diag. reflexivity.
Qed.

Lemma app_two {A : Type} (l : list A) (a b : A) :
  ((l ++ [a]) ++ [b])%list = (l ++ [a; b])%list.
Proof. now rewrite <- app_assoc. Qed.

(** *** What completed passes leave behind *)

Lemma round_events_create (steps : list step) :
  forall msgs, count is_chat_create (round_events msgs steps) = length steps.
Proof.
  induction steps as [|s rest IH]; intros msgs; [reflexivity|].
  cbn [round_events]. unfold count in *. simpl. now rewrite IH.
Qed.

Lemma round_events_call (steps : list step) :
  forall msgs, count is_call_tool (round_events msgs steps) = length steps.
Proof.
  induction steps as [|s rest IH]; intros msgs; [reflexivity|].
  cbn [round_events]. unfold count in *. simpl. now rewrite IH.
Qed.

Lemma round_events_list_tools (steps : list step) :
  forall msgs, count is_list_tools (round_events msgs steps) = 0.
Proof.
  induction steps as [|s rest IH]; intros msgs; [reflexivity|].
  cbn [round_events]. unfold count in *. simpl. now rewrite IH.
Qed.

Lemma entries_app (s1 s2 : list step) :
  entries (s1 ++ s2) = (entries s1 ++ entries s2)%list.
Proof. unfold entries. now rewrite flat_map_app. Qed.

Lemma entries_assistant (steps : list step) :
  filter (has_role "assistant") (entries steps)
  = map (fun s => assistant_entry (step_call s)) steps.
Proof.
  induction steps as [|s rest IH]; [reflexivity|].
  change (entries (s :: rest))
    with (assistant_entry (step_call s) :: tool_entry (step_call s) (step_result s)
            :: entries rest).
  cbn [filter map]. rewrite IH. reflexivity.
Qed.

Lemma entries_tool (steps : list step) :
  filter (has_role "tool") (entries steps)
  = map (fun s => tool_entry (step_call s) (step_result s)) steps.
Proof.
  induction steps as [|s rest IH]; [reflexivity|].
  change (entries (s :: rest))
    with (assistant_entry (step_call s) :: tool_entry (step_call s) (step_result s)
            :: entries rest).
  cbn [filter map]. rewrite IH. reflexivity.
Qed.

Lemma entries_answered_ids (steps : list step) :
  answered_ids (entries steps) = map (fun s => ToolCall.id (step_call s)) steps.
Proof.
  induction steps as [|s rest IH]; [reflexivity|].
  change (entries (s :: rest))
    with (assistant_entry (step_call s) :: tool_entry (step_call s) (step_result s)
            :: entries rest).
  unfold answered_ids in *. cbn [flat_map map]. rewrite IH. reflexivity.
Qed.

Lemma answers_tool_entry (tc : ToolCall.t) (r : CallToolResult.t) :
  answers (ToolCall.id tc) (tool_entry tc r) = true.
Proof. unfold answers. cbn. apply String.eqb_refl. Qed.

Lemma all_answered_app (a b : list value) :
  all_answered a = true -> all_answered b = true -> all_answered (a ++ b) = true.
Proof.
  induction a as [|m rest IH]; intros Ha Hb; [exact Hb|].
  cbn [all_answered app] in *. apply andb_true_iff in Ha as [Hm Hrest].
  apply andb_true_iff. split; [|now apply IH].
  rewrite forallb_forall in *. intros i Hi.
  rewrite existsb_app. now rewrite (Hm i Hi).
Qed.

Lemma all_answered_pair (tc : ToolCall.t) (r : CallToolResult.t) :
  all_answered [assistant_entry tc; tool_entry tc r] = true.
Proof.
  cbn [all_answered]. change (requested_ids (assistant_entry tc)) with [ToolCall.id tc].
  change (requested_ids (tool_entry tc r)) with (@nil string).
  cbn [forallb existsb]. rewrite answers_tool_entry. reflexivity.
Qed.

Lemma round_events_answered (steps : list step) :
  forall msgs,
    all_answered msgs = true -> requests_answered (round_events msgs steps) = true.
Proof.
  induction steps as [|s rest IH]; intros msgs H; [reflexivity|].
  assert (H1 : all_answered
                 (msgs ++ [assistant_entry (step_call s);
                           tool_entry (step_call s) (step_result s)]) = true)
    by (apply all_answered_app; [exact H | apply all_answered_pair]).
  cbn [round_events requests_answered forallb]. rewrite H1.
  apply (IH _ H1).
Qed.

Lemma entries_all_answered (steps : list step) :
  forall msgs, all_answered msgs = true -> all_answered (msgs ++ entries steps) = true.
Proof.
  induction steps as [|s rest IH]; intros msgs H.
  - now rewrite app_nil_r.
  - change (entries (s :: rest))
      with ([assistant_entry (step_call s); tool_entry (step_call s) (step_result s)]
              ++ entries rest)%list.
    rewrite app_assoc. apply IH, all_answered_app; [exact H | apply all_answered_pair].
Qed.

(** *** The loop *)

(** Whatever the collaborators answer, the loop completes some passes,
    possibly issues one more tool call whose failure ends it, and leaves
    the calls it did not reach; when it returns, none is left. *)
Lemma tool_loop_run (w : world) (tool_calls : list ToolCall.t) :
  forall (h : list event) (msgs : list value) (final_text : list string),
  exists (steps : list step) (pending : list ToolCall.t) (tail : list event),
    tool_calls = (map step_call steps ++ pending)%list
    /\ messages (tool_loop w tool_calls h msgs final_text) = (msgs ++ entries steps)%list
    /\ history (tool_loop w tool_calls h msgs final_text)
       = (h ++ round_events msgs steps ++ tail)%list
    /\ (tail = [] \/ exists name args, tail = [CallTool name args])
    /\ Forall (parsed_by w) steps
    /\ (forall texts,
          outcome (tool_loop w tool_calls h msgs final_text) = Ok texts ->
          pending = [] /\ tail = []).
Proof.
  induction tool_calls as [|tc rest IH]; intros h msgs final_text.
  - exists [], [], []. cbn. rewrite !app_nil_r. repeat split; auto.
  - cbn [tool_loop].
    destruct (json_loads w (Function.arguments (ToolCall.function tc)))
      as [parsed|e] eqn:Ej.
    2:{ exists [], (tc :: rest), []. cbn. rewrite !app_nil_r.
        repeat split; auto; discriminate. }
    destruct (call_tool w h (Function.name (ToolCall.function tc)) parsed)
      as [r|e] eqn:Ec.
    2:{ exists [], (tc :: rest), [CallTool (Function.name (ToolCall.function tc)) parsed].
        cbn. rewrite !app_nil_r. repeat split; eauto; discriminate. }
    set (s := {| step_call := tc; step_args := parsed; step_result := r |}).
    set (msgs1 := (msgs ++ [assistant_entry tc; tool_entry tc r])%list).
    set (h1 := (h ++ [CallTool (Function.name (ToolCall.function tc)) parsed])%list).
    assert (Hone : (h1 ++ [ChatCreate gpt_4o msgs1 None None])%list
                   = (h ++ round_events msgs [s] ++ [])%list)
      by (subst h1; cbn; now rewrite <- app_assoc).
    assert (Hent : msgs1 = (msgs ++ entries [s])%list) by reflexivity.
    destruct (chat_create w h1 gpt_4o msgs1 None None) as [[|m others]|e] eqn:Eg.
    + exists [s], rest, []. cbn [history messages outcome].
      repeat split; auto; try discriminate; try (now repeat constructor).
    + destruct (IH (h1 ++ [ChatCreate gpt_4o msgs1 None None])%list msgs1
                   (append_content final_text m))
        as (steps & pending & tail & Hc & Hm & Hh & Ht & Hp & Hok).
      exists (s :: steps), pending, tail.
      repeat split.
      * cbn. now rewrite Hc.
      * rewrite Hm. subst msgs1.
        change (entries (s :: steps))
          with ([assistant_entry tc; tool_entry tc r] ++ entries steps)%list.
        now rewrite app_assoc.
      * rewrite Hh. subst h1. cbn [round_events]. fold msgs1.
        rewrite <- !app_assoc. reflexivity.
      * exact Ht.
      * constructor; [exact Ej | exact Hp].
      * apply (Hok texts H).
      * apply (Hok texts H).
    + exists [s], rest, []. cbn [history messages outcome].
      repeat split; auto; try discriminate; try (now repeat constructor).
Qed.

(** A loop that completes on [done] goes on with what follows [done]. *)
Lemma tool_loop_app (w : world) (done later : list ToolCall.t) :
  forall (h : list event) (msgs : list value) (final_text texts : list string),
    outcome (tool_loop w done h msgs final_text) = Ok texts ->
    tool_loop w (done ++ later) h msgs final_text
    = tool_loop w later (history (tool_loop w done h msgs final_text))
                        (messages (tool_loop w done h msgs final_text)) texts.
Proof.
  induction done as [|tc rest IH]; intros h msgs final_text texts Hok.
  - cbn in *. now injection Hok as ->.
  - cbn [tool_loop app] in *.
    destruct (json_loads w _); [|discriminate].
    destruct (call_tool w h _ _); [|discriminate].
    destruct (chat_create w _ gpt_4o _ None None) as [[|m others]|e]; try discriminate.
    now apply IH.
Qed.


(** *** The query *)

Lemma first_response_tools (w : world) (h : list event) (query : string)
    (m : ChatMessage.t) :
  first_response w h query = Some m ->
  exists tools others,
    list_tools w h = Ok tools
    /\ chat_create w (h ++ [ListTools])%list gpt_4o [user_entry query]
                   (Some (map openai_tool tools)) (Some "auto") = Ok (m :: others).
Proof.
  unfold first_response.
  destruct (list_tools w h) as [tools|e] eqn:El; [|discriminate].
  destruct (chat_create w _ gpt_4o _ _ _) as [[|m' others]|e] eqn:Ec; try discriminate.
  intros [= <-]. exists tools, others. split; [reflexivity | exact Ec].
Qed.

(** With tool calls in the first response, the query is the loop. *)
Lemma process_query_loop (w : world) (h : list event) (query : string)
    (tools : list Tool.t) (m : ChatMessage.t) (others : list ChatMessage.t)
    (tool_calls : list ToolCall.t) :
  list_tools w h = Ok tools ->
  chat_create w (h ++ [ListTools])%list gpt_4o [user_entry query]
              (Some (map openai_tool tools)) (Some "auto") = Ok (m :: others) ->
  ChatMessage.tool_calls m = Some tool_calls ->
  tool_calls <> [] ->
  let r := tool_loop w tool_calls (h ++ [ListTools; first_request tools query])%list
                     [user_entry query] [] in
  process_query w h query
  = {| history := history r;
       messages := messages r;
       outcome := (final_text <- outcome r ;; Ok (join nl final_text)) |}.
Proof.
  intros Hl Hc Ht Hne. unfold process_query. cbv zeta. rewrite Hl, Hc, Ht.
  destruct tool_calls as [|tc rest]; [contradiction|].
  rewrite !app_two. reflexivity.
Qed.

(** Without tool calls, the query ends after the first response. *)
Lemma process_query_plain (w : world) (h : list event) (query : string)
    (tools : list Tool.t) (m : ChatMessage.t) (others : list ChatMessage.t) :
  list_tools w h = Ok tools ->
  chat_create w (h ++ [ListTools])%list gpt_4o [user_entry query]
              (Some (map openai_tool tools)) (Some "auto") = Ok (m :: others) ->
  ChatMessage.tool_calls m = None \/ ChatMessage.tool_calls m = Some [] ->
  process_query w h query
  = {| history := (h ++ [ListTools; first_request tools query])%list;
       messages := [user_entry query];
       outcome := Ok (join nl (append_content [] m)) |}.
Proof.
  intros Hl Hc Ht. unfold process_query. cbv zeta. rewrite Hl, Hc, !app_two.
  now destruct Ht as [-> | ->].
Qed.

(** The shape of every run of a query, completed or not. *)
Lemma process_query_shape (w : world) (h : list event) (query : string) :
  exists (steps : list step) (pre tail : list event),
    messages (process_query w h query) = user_entry query :: entries steps
    /\ history (process_query w h query)
       = (h ++ ListTools :: pre ++ round_events [user_entry query] steps ++ tail)%list
    /\ (pre = [] \/ exists tools, pre = [first_request tools query])
    /\ (tail = [] \/ exists name args, tail = [CallTool name args]).
Proof.
  unfold process_query. cbv zeta.
  destruct (list_tools w h) as [tools|e].
  2:{ exists [], [], []. cbn. repeat split; auto. }
  rewrite !app_two. fold (first_request tools query).
  assert (Hplain : forall (A : Type) (o : result A),
             exists (steps : list step) (pre tail : list event),
               messages {| history := (h ++ [ListTools; first_request tools query])%list;
                           messages := [user_entry query]; outcome := o |}
               = user_entry query :: entries steps
               /\ history {| history := (h ++ [ListTools; first_request tools query])%list;
                             messages := [user_entry query]; outcome := o |}
                  = (h ++ ListTools :: pre ++ round_events [user_entry query] steps ++ tail)%list
               /\ (pre = [] \/ exists tools, pre = [first_request tools query])
               /\ (tail = [] \/ exists name args, tail = [CallTool name args])).
  { intros A o. exists [], [first_request tools query], []. cbn. repeat split; eauto. }
  destruct (chat_create w _ gpt_4o _ _ _) as [[|m others]|e]; try apply Hplain.
  destruct (ChatMessage.tool_calls m) as [[|tc rest]|]; try apply Hplain.
  destruct (tool_loop_run w (tc :: rest) (h ++ [ListTools; first_request tools query])%list
              [user_entry query] [])
    as (steps & pending & tail & _ & Hm & Hh & Ht & _ & _).
  exists steps, [first_request tools query], tail.
  cbn [history messages]. rewrite Hm, Hh, <- app_assoc. repeat split; eauto.
Qed.

(** A query that returns after tool calls has completed one pass per call. *)
Lemma process_query_completed (w : world) (h : list event) (query : string)
    (m : ChatMessage.t) (tool_calls : list ToolCall.t) (text : string) :
  first_response w h query = Some m ->
  ChatMessage.tool_calls m = Some tool_calls ->
  tool_calls <> [] ->
  outcome (process_query w h query) = Ok text ->
  exists (tools : list Tool.t) (steps : list step),
    list_tools w h = Ok tools
    /\ map step_call steps = tool_calls
    /\ Forall (parsed_by w) steps
    /\ messages (process_query w h query) = user_entry query :: entries steps
    /\ since h (process_query w h query)
       = ListTools :: first_request tools query :: round_events [user_entry query] steps.
Proof.
  intros Hf Ht Hne Hok.
  destruct (first_response_tools _ _ _ _ Hf) as (tools & others & Hl & Hc).
  rewrite (process_query_loop _ _ _ _ _ _ _ Hl Hc Ht Hne) in *.
  cbn [history messages outcome] in *.
  destruct (tool_loop_run w tool_calls (h ++ [ListTools; first_request tools query])%list
              [user_entry query] [])
    as (steps & pending & tail & Hcalls & Hm & Hh & _ & Hp & Hdone).
  destruct (outcome (tool_loop w tool_calls _ _ _)) as [texts|e] eqn:Eo; [|discriminate].
  destruct (Hdone texts eq_refl) as [-> ->].
  rewrite app_nil_r in Hcalls, Hh.
  exists tools, steps. repeat split; auto.
  apply since_app. cbn [history]. rewrite Hh, <- app_assoc. reflexivity.
Qed.

(** Every query that gets its tool list sends it, translated, with the
    user's message, as the first model call. *)
Lemma process_query_first_request (w : world) (h : list event) (query : string)
    (tools : list Tool.t) :
  list_tools w h = Ok tools ->
  exists rest,
    since h (process_query w h query) = ListTools :: first_request tools query :: rest.
Proof.
  intros Hl.
  destruct (process_query_shape w h query) as (steps & pre & tail & _ & Hh & _ & _).
  revert Hh. unfold process_query. cbv zeta. rewrite Hl, !app_two.
  fold (first_request tools query).
  assert (Hplain : forall (A : Type) (r : run A),
             history r = (h ++ [ListTools; first_request tools query])%list ->
             exists rest, since h r = ListTools :: first_request tools query :: rest).
  { intros A r E. exists []. now apply since_app. }
  destruct (chat_create w _ gpt_4o _ _ _) as [[|m others]|e]; intros _;
    try (now apply Hplain).
  destruct (ChatMessage.tool_calls m) as [[|tc rest]|]; try (now apply Hplain).
  destruct (tool_loop_run w (tc :: rest) (h ++ [ListTools; first_request tools query])%list
              [user_entry query] [])
    as (steps' & pending & tail' & _ & _ & Hh' & _ & _ & _).
  eexists. apply since_app. cbn [history]. rewrite Hh', <- app_assoc. reflexivity.
Qed.

(** Pass [k] is the tool call at position [2k], directly followed by the
    model call at position [2k+1], which is sent the conversation with the
    messages of the passes up to [k]. *)
Lemma round_events_nth (steps : list step) :
  forall (msgs : list value) (k : nat) (s : step),
    nth_error steps k = Some s ->
    nth_error (round_events msgs steps) (2 * k)
    = Some (CallTool (Function.name (ToolCall.function (step_call s))) (step_args s))
    /\ nth_error (round_events msgs steps) (2 * k + 1)
       = Some (ChatCreate gpt_4o (msgs ++ entries (firstn (S k) steps)) None None).
Proof.
  induction steps as [|s0 rest IH]; intros msgs k s Hk.
  - destruct k; discriminate.
  - destruct k as [|k].
    + cbn in Hk. injection Hk as ->. cbn. split; reflexivity.
    + cbn [nth_error] in Hk.
      replace (2 * S k) with (S (S (2 * k))) by lia.
      cbn [round_events nth_error Nat.add].
      destruct (IH (msgs ++ [assistant_entry (step_call s0);
                             tool_entry (step_call s0) (step_result s0)])%list k s Hk)
        as [H1 H2].
      split; [exact H1|]. rewrite H2.
      change (entries (firstn (S (S k)) (s0 :: rest)))
        with ([assistant_entry (step_call s0); tool_entry (step_call s0) (step_result s0)]
                ++ entries (firstn (S k) rest))%list.
      now rewrite app_assoc.
Qed.

Lemma tool_loop_completed (w : world) (tool_calls : list ToolCall.t)
    (h : list event) (msgs : list value) (final_text texts : list string) :
  outcome (tool_loop w tool_calls h msgs final_text) = Ok texts ->
  exists steps : list step,
    map step_call steps = tool_calls
    /\ Forall (parsed_by w) steps
    /\ messages (tool_loop w tool_calls h msgs final_text) = (msgs ++ entries steps)%list
    /\ history (tool_loop w tool_calls h msgs final_text)
       = (h ++ round_events msgs steps)%list.
Proof.
  intros Hok.
  destruct (tool_loop_run w tool_calls h msgs final_text)
    as (steps & pending & tail & Hcalls & Hm & Hh & _ & Hp & Hdone).
  destruct (Hdone texts Hok) as [-> ->].
  rewrite app_nil_r in Hcalls, Hh.
  exists steps. repeat split; auto.
Qed.

Lemma answered_ids_conversation (query : string) (steps : list step) :
  answered_ids (user_entry query :: entries steps)
  = map ToolCall.id (map step_call steps).
Proof.
  change (answered_ids (user_entry query :: entries steps))
    with (answered_ids (entries steps)).
  now rewrite entries_answered_ids, map_map.
Qed.

Lemma connect_to_server_events (w : world) (h : list event) (path : string) :
  snd (connect_to_server w h path) = Ok tt ->
  exists command tool_names,
    fst (connect_to_server w h path)
    = (h ++ [StdioClient command [path]; Initialize; ListTools; PrintTools tool_names])%list.
Proof.
  unfold connect_to_server.
  assert (Hgo : forall command,
             snd (let h1 := (h ++ [StdioClient command [path]])%list in
                  match stdio_client w h command [path] with
                  | Raise e => (h1, Raise e)
                  | Ok _ =>
                      let h2 := (h1 ++ [Initialize])%list in
                      match initialize w h1 with
                      | Raise e => (h2, Raise e)
                      | Ok _ =>
                          let h3 := (h2 ++ [ListTools])%list in
                          match list_tools w h2 with
                          | Raise e => (h3, Raise e)
                          | Ok tools => ((h3 ++ [PrintTools (map Tool.name tools)])%list, Ok tt)
                          end
                      end
                  end) = Ok tt ->
             exists command' tool_names,
               fst (let h1 := (h ++ [StdioClient command [path]])%list in
                    match stdio_client w h command [path] with
                    | Raise e => (h1, Raise e)
                    | Ok _ =>
                        let h2 := (h1 ++ [Initialize])%list in
                        match initialize w h1 with
                        | Raise e => (h2, Raise e)
                        | Ok _ =>
                            let h3 := (h2 ++ [ListTools])%list in
                            match list_tools w h2 with
                            | Raise e => (h3, Raise e)
                            | Ok tools =>
                                ((h3 ++ [PrintTools (map Tool.name tools)])%list, Ok tt)
                            end
                        end
                    end)
               = (h ++ [StdioClient command' [path]; Initialize; ListTools;
                        PrintTools tool_names])%list).
  { intros command. cbv zeta.
    destruct (stdio_client w h command [path]); [|discriminate].
    destruct (initialize w _); [|discriminate].
    destruct (list_tools w _) as [tools|e]; [|discriminate].
    intros _. exists command, (map Tool.name tools). cbn [fst].
    now rewrite <- !app_assoc. }
  destruct (endswith path ".py"); [apply Hgo|].
  destruct (endswith path ".js"); [apply Hgo|discriminate].
Qed.

Lemma openai_tool_inj (t1 t2 : Tool.t) :
  openai_tool t1 = openai_tool t2 -> t1 = t2.
Proof.
  destruct t1 as [n1 d1 s1], t2 as [n2 d2 s2]. unfold openai_tool. cbn.
  intros [= Hn Hd Hs]. subst.
  destruct d1, d2; cbn in Hd; try discriminate; congruence.
Qed.

Lemma assistant_entry_inj (tc1 tc2 : ToolCall.t) :
  assistant_entry tc1 = assistant_entry tc2 -> tc1 = tc2.
Proof.
  destruct tc1 as [i1 [n1 a1]], tc2 as [i2 [n2 a2]]. unfold assistant_entry. cbn.
  now intros [= -> -> ->].
Qed.

Lemma join_append_content (m : ChatMessage.t) :
  join nl (append_content [] m)
  = match ChatMessage.content m with Some text => text | None => "" end.
Proof.
  unfold append_content. destruct (ChatMessage.content m) as [text|]; [|reflexivity].
  destruct (String.eqb_spec text ""); [now subst | reflexivity].
Qed.

(** *** Rounds with tool calls *)

(** C1 (amended). When the first response asks for N >= 1 tool calls and
    the query returns, N follow-up model calls are issued, one per tool
    call: the k-th tool call is dispatched, its two messages are appended,
    and the k-th follow-up is sent at once, with the results of the calls
    up to the k-th and before the next call is dispatched.  Only a round of
    one tool call has a single follow-up after all its dispatches. *)
Theorem follow_up_after_each_tool_call
    (w : world) (h : list event) (query : string) (m : ChatMessage.t)
    (tool_calls : list ToolCall.t) (text : string) :
  first_response w h query = Some m ->
  ChatMessage.tool_calls m = Some tool_calls ->
  tool_calls <> [] ->
  outcome (process_query w h query) = Ok text ->
  length (follow_ups (since h (process_query w h query))) = length tool_calls
  /\ count is_call_tool (since h (process_query w h query)) = length tool_calls
  /\ (forall (k : nat) (tc : ToolCall.t),
        nth_error tool_calls k = Some tc ->
        exists (args : value) (msgs : list value),
          json_loads w (Function.arguments (ToolCall.function tc)) = Ok args
          /\ nth_error (since h (process_query w h query)) (2 + 2 * k)
             = Some (CallTool (Function.name (ToolCall.function tc)) args)
          /\ nth_error (since h (process_query w h query)) (3 + 2 * k)
             = Some (ChatCreate gpt_4o msgs None None)
          /\ answered_ids msgs = map ToolCall.id (firstn (S k) tool_calls))
  /\ (length tool_calls = 1 ->
      single_follow_up 1 (since h (process_query w h query)) = true).
Proof.
  intros Hf Ht Hne Hok.
  destruct (process_query_completed _ _ _ _ _ _ Hf Ht Hne Hok)
    as (tools & steps & Hl & Hcalls & Hp & Hm & ->).
  assert (Hlen : length steps = length tool_calls)
    by (rewrite <- Hcalls; now rewrite length_map).
  repeat split.
  - unfold follow_ups. cbn [filter is_chat_create first_request tl].
    rewrite <- Hlen. apply round_events_create.
  - change (count is_call_tool (ListTools :: first_request tools query
                                  :: round_events [user_entry query] steps))
      with (count is_call_tool (round_events [user_entry query] steps)).
    rewrite <- Hlen. apply round_events_call.
  - intros k tc Hk. rewrite <- Hcalls in Hk. rewrite nth_error_map in Hk.
    destruct (nth_error steps k) as [s|] eqn:Es; [|discriminate].
    cbn in Hk. injection Hk as <-.
    destruct (round_events_nth steps [user_entry query] k s Es) as [H1 H2].
    exists (step_args s), ([user_entry query] ++ entries (firstn (S k) steps))%list.
    repeat split.
    + rewrite Forall_forall in Hp. apply Hp. eapply nth_error_In; eassumption.
    + exact H1.
    + replace (3 + 2 * k) with (S (S (2 * k + 1))) by lia. exact H2.
    + change ([user_entry query] ++ entries (firstn (S k) steps))%list
        with (user_entry query :: entries (firstn (S k) steps)).
      rewrite answered_ids_conversation, <- Hcalls. now rewrite firstn_map.
  - intros H1. rewrite <- Hlen in H1.
    destruct steps as [|s [|s' rest]]; try discriminate. reflexivity.
Qed.

Lemma follow_up_after_each_tool_call_sample :
  length (follow_ups (since [] (process_query Samples.two_calls [] Samples.question))) = 2
  /\ count is_call_tool (since [] (process_query Samples.two_calls [] Samples.question)) = 2.
Proof.
  destruct (follow_up_after_each_tool_call Samples.two_calls [] Samples.question
              (Samples.asks [Samples.call_CA; Samples.call_NY])
              [Samples.call_CA; Samples.call_NY]
              ("No alerts in CA." ++ nl ++ "No alerts in NY."))
    as (H1 & H2 & _).
  - reflexivity.
  - reflexivity.
  - discriminate.
  - reflexivity.
  - split; [exact H1 | exact H2].
Defined.

(** C1 as stated fails on a round of two tool calls: the exchanges are
    model, tool, model, tool, model, so there are two follow-up calls and
    the first of them precedes the second dispatch. *)
Lemma two_tool_calls_two_follow_ups :
  single_follow_up 2 (since [] (process_query Samples.two_calls [] Samples.question)) = false
  /\ length (follow_ups (since [] (process_query Samples.two_calls [] Samples.question))) = 2
  /\ map is_chat_create
       (exchanges (since [] (process_query Samples.two_calls [] Samples.question)))
     = [true; false; true; false; true].
Proof. vm_compute. repeat split. Qed.

(** C4 (amended). When the first response asks for tool calls and the
    query returns, one assistant message is appended per tool call, in the
    order of the calls; each carries that call alone, with its id, tool
    name and argument text as the model gave them. *)
Theorem assistant_message_per_tool_call
    (w : world) (h : list event) (query : string) (m : ChatMessage.t)
    (tool_calls : list ToolCall.t) (text : string) :
  first_response w h query = Some m ->
  ChatMessage.tool_calls m = Some tool_calls ->
  tool_calls <> [] ->
  outcome (process_query w h query) = Ok text ->
  filter (has_role "assistant") (messages (process_query w h query))
    = map assistant_entry tool_calls
  /\ (forall tc : ToolCall.t,
        getitem (assistant_entry tc) "tool_calls"
        = Ok (PList [PDict [("id", PStr (ToolCall.id tc));
                            ("type", PStr "function");
                            ("function",
                             PDict [("name", PStr (Function.name (ToolCall.function tc)));
                                    ("arguments",
                                     PStr (Function.arguments (ToolCall.function tc)))])]]))
  /\ (forall tc1 tc2 : ToolCall.t, assistant_entry tc1 = assistant_entry tc2 -> tc1 = tc2).
Proof.
  intros Hf Ht Hne Hok.
  destruct (process_query_completed _ _ _ _ _ _ Hf Ht Hne Hok)
    as (tools & steps & Hl & Hcalls & Hp & Hm & _).
  repeat split.
  - rewrite Hm.
    change (filter (has_role "assistant") (user_entry query :: entries steps))
      with (filter (has_role "assistant") (entries steps)).
    rewrite entries_assistant, <- Hcalls. now rewrite map_map.
  - exact assistant_entry_inj.
Qed.

Lemma assistant_message_per_tool_call_sample :
  filter (has_role "assistant")
         (messages (process_query Samples.two_calls [] Samples.question))
  = [assistant_entry Samples.call_CA; assistant_entry Samples.call_NY].
Proof.
  refine (proj1 (assistant_message_per_tool_call Samples.two_calls [] Samples.question
                   (Samples.asks [Samples.call_CA; Samples.call_NY])
                   [Samples.call_CA; Samples.call_NY]
                   ("No alerts in CA." ++ nl ++ "No alerts in NY.") _ _ _ _)).
  - reflexivity.
  - reflexivity.
  - discriminate.
  - reflexivity.
Defined.

(** C4 as stated fails on a round of two tool calls: two assistant
    messages are appended, and neither carries both calls. *)
Lemma two_tool_calls_two_assistant_messages :
  count (has_role "assistant")
        (messages (process_query Samples.two_calls [] Samples.question)) = 2
  /\ map requested_ids
       (filter (has_role "assistant")
               (messages (process_query Samples.two_calls [] Samples.question)))
     = [["call_1"]; ["call_2"]].
Proof. vm_compute. repeat split. Qed.

(** C5 (amended). In every run of a query, returned or aborted, each tool
    call request put into the conversation is followed by the tool message
    with its call id, in the conversation sent with every model call and in
    the final one.  When the first response asks for N tool calls and the
    query returns, exactly N tool messages are appended, the k-th answering
    the k-th call id. *)
Theorem tool_results_match_requests
    (w : world) (h : list event) (query : string) :
  all_answered (messages (process_query w h query)) = true
  /\ requests_answered (since h (process_query w h query)) = true
  /\ (forall (m : ChatMessage.t) (tool_calls : list ToolCall.t) (text : string),
        first_response w h query = Some m ->
        ChatMessage.tool_calls m = Some tool_calls ->
        tool_calls <> [] ->
        outcome (process_query w h query) = Ok text ->
        answered_ids (messages (process_query w h query)) = map ToolCall.id tool_calls
        /\ count (has_role "tool") (messages (process_query w h query))
           = length tool_calls).
Proof.
  repeat split.
  - destruct (process_query_shape w h query) as (steps & pre & tail & -> & _).
    change (user_entry query :: entries steps)
      with ([user_entry query] ++ entries steps)%list.
    now apply entries_all_answered.
  - destruct (process_query_shape w h query) as (steps & pre & tail & _ & Hh & Hpre & Htail).
    rewrite (since_app h _ _ Hh).
    unfold requests_answered.
    change (ListTools :: pre ++ round_events [user_entry query] steps ++ tail)%list
      with ([ListTools] ++ pre ++ round_events [user_entry query] steps ++ tail)%list.
    rewrite !forallb_app.
    fold (requests_answered (round_events [user_entry query] steps)).
    rewrite round_events_answered by reflexivity.
    destruct Hpre as [-> | (tools & ->)], Htail as [-> | (name & args & ->)]; reflexivity.
  - destruct (process_query_completed _ _ _ _ _ _ H H0 H1 H2)
      as (tools & steps & _ & Hcalls & _ & -> & _).
    rewrite answered_ids_conversation. now rewrite Hcalls.
  - destruct (process_query_completed _ _ _ _ _ _ H H0 H1 H2)
      as (tools & steps & _ & Hcalls & _ & -> & _).
    unfold count.
    change (filter (has_role "tool") (user_entry query :: entries steps))
      with (filter (has_role "tool") (entries steps)).
    rewrite entries_tool, length_map, <- Hcalls. now rewrite length_map.
Qed.

Lemma tool_results_match_requests_sample :
  answered_ids (messages (process_query Samples.two_calls [] Samples.question))
  = ["call_1"; "call_2"]
  /\ count (has_role "tool")
           (messages (process_query Samples.two_calls [] Samples.question)) = 2.
Proof.
  destruct (tool_results_match_requests Samples.two_calls [] Samples.question)
    as (_ & _ & H).
  apply (H (Samples.asks [Samples.call_CA; Samples.call_NY])
           [Samples.call_CA; Samples.call_NY]
           ("No alerts in CA." ++ nl ++ "No alerts in NY.")).
  - reflexivity.
  - reflexivity.
  - discriminate.
  - reflexivity.
Defined.

(** C5 as stated fails on a round of two tool calls whose second argument
    text is malformed: one tool message is appended, not two. *)
Lemma two_tool_calls_one_tool_message :
  option_map (fun m => option_map (@length ToolCall.t) (ChatMessage.tool_calls m))
             (first_response Samples.bad_second [] Samples.question) = Some (Some 2)
  /\ answered_ids (messages (process_query Samples.bad_second [] Samples.question))
     = ["call_1"]
  /\ count (has_role "tool")
           (messages (process_query Samples.bad_second [] Samples.question)) = 1
  /\ outcome (process_query Samples.bad_second [] Samples.question) = Raise JSONDecodeError.
Proof. vm_compute. repeat split. Qed.

(** *** Failures inside a round *)


(** C2 (amended). When the argument text of a tool call does not parse,
    [json.loads] raises and the exception leaves [process_query]: the query
    is aborted with that exception, no message is appended for the call, and
    neither this call nor any later call of the round is dispatched or
    followed up.  What the calls before it appended and issued stays. *)
Theorem parse_failure_aborts_query
    (w : world) (h : list event) (query : string) (tools : list Tool.t)
    (m : ChatMessage.t) (others : list ChatMessage.t)
    (done later : list ToolCall.t) (bad : ToolCall.t)
    (e : exn) (texts : list string) :
  list_tools w h = Ok tools ->
  chat_create w (h ++ [ListTools])%list gpt_4o [user_entry query]
              (Some (map openai_tool tools)) (Some "auto") = Ok (m :: others) ->
  ChatMessage.tool_calls m = Some (done ++ bad :: later)%list ->
  outcome (tool_loop w done (h ++ [ListTools; first_request tools query])%list
                     [user_entry query] []) = Ok texts ->
  json_loads w (Function.arguments (ToolCall.function bad)) = Raise e ->
  process_query w h query
    = {| history := history (tool_loop w done
                               (h ++ [ListTools; first_request tools query])%list
                               [user_entry query] []);
         messages := messages (tool_loop w done
                                 (h ++ [ListTools; first_request tools query])%list
                                 [user_entry query] []);
         outcome := Raise e |}
  /\ answered_ids (messages (process_query w h query)) = map ToolCall.id done
  /\ count is_call_tool (since h (process_query w h query)) = length done
  /\ count is_chat_create (since h (process_query w h query)) = 1 + length done.
Proof.
  intros Hl Hc Ht Hdone Hbad.
  assert (Hne : (done ++ bad :: later)%list <> []) by (now destruct done).
  assert (Hrun : process_query w h query
                 = {| history := history (tool_loop w done
                                            (h ++ [ListTools; first_request tools query])%list
                                            [user_entry query] []);
                      messages := messages (tool_loop w done
                                              (h ++ [ListTools; first_request tools query])%list
                                              [user_entry query] []);
                      outcome := Raise e |}).
  { rewrite (process_query_loop _ _ _ _ _ _ _ Hl Hc Ht Hne).
    rewrite (tool_loop_app _ _ _ _ _ _ _ Hdone).
    cbn [tool_loop]. rewrite Hbad. reflexivity. }
  destruct (tool_loop_completed _ _ _ _ _ _ Hdone) as (steps & Hcalls & _ & Hm & Hh).
  assert (Hlen : length steps = length done)
    by (rewrite <- Hcalls; now rewrite length_map).
  rewrite Hrun. cbn [messages]. rewrite Hm.
  rewrite (since_app h (ListTools :: first_request tools query
                          :: round_events [user_entry query] steps))
    by (cbn [history]; rewrite Hh, <- app_assoc; reflexivity).
  repeat split.
  - change ([user_entry query] ++ entries steps)%list
      with (user_entry query :: entries steps).
    rewrite answered_ids_conversation. now rewrite Hcalls.
  - change (count is_call_tool (ListTools :: first_request tools query
                                  :: round_events [user_entry query] steps))
      with (count is_call_tool (round_events [user_entry query] steps)).
    rewrite <- Hlen. apply round_events_call.
  - change (count is_chat_create (ListTools :: first_request tools query
                                    :: round_events [user_entry query] steps))
      with (S (count is_chat_create (round_events [user_entry query] steps))).
    rewrite <- Hlen. now rewrite round_events_create.
Qed.

Lemma parse_failure_aborts_query_sample :
  outcome (process_query Samples.bad_second [] Samples.question) = Raise JSONDecodeError
  /\ answered_ids (messages (process_query Samples.bad_second [] Samples.question))
     = ["call_1"]
  /\ count is_call_tool (since [] (process_query Samples.bad_second [] Samples.question)) = 1.
Proof.
  destruct (parse_failure_aborts_query Samples.bad_second [] Samples.question
              [Samples.get_alerts_tool]
              (Samples.asks [Samples.call_CA; Samples.call_bad_2]) []
              [Samples.call_CA] [] Samples.call_bad_2
              JSONDecodeError ["No alerts in CA."])
    as (Hrun & Hids & Hcalls & _).
  - reflexivity.
  - reflexivity.
  - reflexivity.
  - reflexivity.
  - reflexivity.
  - split; [rewrite Hrun; reflexivity | split; [exact Hids | exact Hcalls]].
Defined.

(** C2 as stated fails when the first of two tool calls has a malformed
    argument text: the query ends with the parser's exception, the
    conversation still holds the user's message only, and the second call,
    whose arguments are well formed, is never dispatched. *)
Lemma malformed_arguments_abort_the_query :
  outcome (process_query Samples.bad_first [] Samples.question) = Raise JSONDecodeError
  /\ messages (process_query Samples.bad_first [] Samples.question)
     = [user_entry Samples.question]
  /\ existsb (answers "call_1")
             (messages (process_query Samples.bad_first [] Samples.question)) = false
  /\ json_loads Samples.bad_first
       (Function.arguments (ToolCall.function Samples.call_NY))
     = Ok (PDict [("state", PStr "NY")])
  /\ count is_call_tool (history (process_query Samples.bad_first [] Samples.question)) = 0.
Proof. vm_compute. repeat split. Qed.




(** *** Answers without tool calls *)

(** C6. When the first model response carries no tool calls, the query
    returns the text of that response, unchanged, and no other model call
    is made; a response without text gives the empty string. *)
Theorem no_tool_calls_returns_first_text
    (w : world) (h : list event) (query : string) (m : ChatMessage.t) :
  first_response w h query = Some m ->
  ChatMessage.tool_calls m = None \/ ChatMessage.tool_calls m = Some [] ->
  outcome (process_query w h query)
    = Ok (match ChatMessage.content m with Some text => text | None => "" end)
  /\ count is_chat_create (since h (process_query w h query)) = 1
  /\ count is_call_tool (since h (process_query w h query)) = 0.
Proof.
  intros Hf Ht.
  destruct (first_response_tools _ _ _ _ Hf) as (tools & others & Hl & Hc).
  rewrite (process_query_plain _ _ _ _ _ _ Hl Hc Ht).
  cbn [outcome]. rewrite join_append_content.
  rewrite (since_app h [ListTools; first_request tools query]) by reflexivity.
  repeat split.
Qed.

Lemma no_tool_calls_returns_first_text_sample :
  outcome (process_query Samples.plain_answer [] Samples.question) = Ok "Hello!"
  /\ count is_chat_create (since [] (process_query Samples.plain_answer [] Samples.question)) = 1
  /\ count is_call_tool (since [] (process_query Samples.plain_answer [] Samples.question)) = 0.
Proof.
  apply (no_tool_calls_returns_first_text Samples.plain_answer [] Samples.question
           (Samples.says (Some "Hello!"))).
  - reflexivity.
  - left. reflexivity.
Defined.

(** C9. When the first model response carries neither tool calls nor text
    (the content is absent or empty), the query returns the empty string:
    it does not raise and does not return [None]. *)
Theorem no_text_returns_empty_string
    (w : world) (h : list event) (query : string) (m : ChatMessage.t) :
  first_response w h query = Some m ->
  ChatMessage.tool_calls m = None \/ ChatMessage.tool_calls m = Some [] ->
  ChatMessage.content m = None \/ ChatMessage.content m = Some "" ->
  outcome (process_query w h query) = Ok "".
Proof.
  intros Hf Ht Hc0.
  destruct (first_response_tools _ _ _ _ Hf) as (tools & others & Hl & Hc).
  rewrite (process_query_plain _ _ _ _ _ _ Hl Hc Ht).
  cbn [outcome]. rewrite join_append_content.
  now destruct Hc0 as [-> | ->].
Qed.

Lemma no_text_returns_empty_string_sample :
  outcome (process_query Samples.silent [] Samples.question) = Ok "".
Proof.
  apply (no_text_returns_empty_string Samples.silent [] Samples.question
           (Samples.says None)).
  - reflexivity.
  - left. reflexivity.
  - left. reflexivity.
Defined.

(** *** Tool schemas and the tool list *)

(** C7. The translation of a tool is a total function that copies the
    tool's name, description and input schema, the last one under
    [parameters], next to the constant type [function]: equal tools give
    equal schemas, different tools different ones (nothing is dropped or
    normalised), no schema is rejected, and whatever [list_tools] returned
    is sent, translated element by element, with the first model call. *)
Theorem openai_tool_passthrough :
  (forall tool : Tool.t,
      getitem (openai_tool tool) "type" = Ok (PStr "function")
      /\ (f <- getitem (openai_tool tool) "function" ;; getitem f "name")
         = Ok (PStr (Tool.name tool))
      /\ (f <- getitem (openai_tool tool) "function" ;; getitem f "description")
         = Ok (opt_str (Tool.description tool))
      /\ (f <- getitem (openai_tool tool) "function" ;; getitem f "parameters")
         = Ok (Tool.inputSchema tool))
  /\ (forall t1 t2 : Tool.t, t1 = t2 -> openai_tool t1 = openai_tool t2)
  /\ (forall t1 t2 : Tool.t, openai_tool t1 = openai_tool t2 -> t1 = t2)
  /\ (forall (w : world) (h : list event) (query : string) (tools : list Tool.t),
        list_tools w h = Ok tools ->
        nth_error (since h (process_query w h query)) 1
        = Some (ChatCreate gpt_4o [user_entry query] (Some (map openai_tool tools))
                           (Some "auto"))).
Proof.
  repeat split.
  - now intros t1 t2 ->.
  - exact openai_tool_inj.
  - intros w h query tools Hl.
    destruct (process_query_first_request w h query tools Hl) as (rest & ->).
    reflexivity.
Qed.

Lemma openai_tool_passthrough_sample :
  openai_tool Samples.get_alerts_tool = openai_tool Samples.get_alerts_tool
  /\ nth_error (since [] (process_query Samples.one_call [] Samples.question)) 1
     = Some (ChatCreate gpt_4o [user_entry Samples.question]
                        (Some [openai_tool Samples.get_alerts_tool]) (Some "auto")).
Proof.
  destruct openai_tool_passthrough as (_ & Hdet & _ & Hsent).
  split.
  - apply Hdet. reflexivity.
  - apply (Hsent Samples.one_call [] Samples.question [Samples.get_alerts_tool]).
    reflexivity.
Defined.

(** C8 (amended). The tool list is fetched once while connecting, only to
    print the names, and again by every query: [process_query] starts with
    one [list_tools] call, makes no other, and translates what that call
    returned; nothing is kept from one fetch to the next. *)
Theorem list_tools_fetched_by_every_query :
  (forall (w : world) (h : list event) (query : string),
      exists rest,
        since h (process_query w h query) = ListTools :: rest
        /\ count is_list_tools rest = 0)
  /\ (forall (w : world) (h : list event) (query : string) (tools : list Tool.t),
        list_tools w h = Ok tools ->
        nth_error (since h (process_query w h query)) 1
        = Some (first_request tools query))
  /\ (forall (w : world) (h : list event) (path : string),
        snd (connect_to_server w h path) = Ok tt ->
        count is_list_tools (skipn (length h) (fst (connect_to_server w h path))) = 1).
Proof.
  repeat split.
  - intros w h query.
    destruct (process_query_shape w h query) as (steps & pre & tail & _ & Hh & Hpre & Htail).
    eexists. split; [apply since_app; exact Hh|].
    rewrite !count_app, round_events_list_tools.
    destruct Hpre as [-> | (tools & ->)], Htail as [-> | (name & args & ->)]; reflexivity.
  - intros w h query tools Hl.
    destruct (process_query_first_request w h query tools Hl) as (rest & ->).
    reflexivity.
  - intros w h path Hok.
    destruct (connect_to_server_events w h path Hok) as (command & names & ->).
    rewrite skipn_app, skipn_all, Nat.sub_diag. reflexivity.
Qed.

Lemma list_tools_fetched_by_every_query_sample :
  nth_error (since [] (process_query Samples.one_call [] Samples.question)) 1
  = Some (first_request [Samples.get_alerts_tool] Samples.question)
  /\ count is_list_tools
       (skipn (length (@nil event))
              (fst (connect_to_server Samples.one_call [] "weather.py"))) = 1.
Proof.
  destruct list_tools_fetched_by_every_query as (_ & Hsent & Hconnect).
  split.
  - apply (Hsent Samples.one_call [] Samples.question [Samples.get_alerts_tool]).
    reflexivity.
  - apply (Hconnect Samples.one_call [] "weather.py"). reflexivity.
Defined.

(** C8 as stated fails: after a connect that fetched the tool list, the
    first query fetches it again. *)
Lemma list_tools_called_again_by_query :
  let connected := fst (connect_to_server Samples.one_call [] "weather.py") in
  snd (connect_to_server Samples.one_call [] "weather.py") = Ok tt
  /\ count is_list_tools connected = 1
  /\ count is_list_tools
       (since connected (process_query Samples.one_call connected Samples.question)) = 1
  /\ count is_list_tools
       (history (process_query Samples.one_call connected Samples.question)) = 2.
Proof. vm_compute. repeat split. Qed.

End ClientFacts.

(** ** More properties of the weather tools *)

Module ForecastFacts.
Import Weather Alerts.

Section WithWorld.

Variable py_str : value -> string.
Variable py_upper : string -> string.
Variable http_get_json : nat -> string -> list (string * string) -> result value.

Lemma format_periods_raise (done : list value) :
  forall (acc : list string) (bad : value) (later : list value) (e : exn)
         (texts : list string),
    formatted py_str done texts ->
    format_period py_str bad = Raise e ->
    format_periods py_str (done ++ bad :: later) acc = Raise e.
Proof.
  induction done as [|d done IH]; intros acc bad later e texts HF HB.
  - cbn. now rewrite HB.
  - inversion HF as [|? t ? ts Hd Hrest]; subst. cbn [app format_periods].
    rewrite Hd. cbn [bind]. eapply IH; eassumption.
Qed.


(** A forecast without periods gives the empty string, not a message. *)
Theorem get_forecast_no_periods
    (latitude longitude : float) (forecast_data properties : value) :
  fetched_forecast py_str http_get_json latitude longitude = Some forecast_data ->
  getitem forecast_data "properties" = Ok properties ->
  getitem properties "periods" = Ok (PList []) ->
  get_forecast py_str http_get_json latitude longitude = Ok "".
Proof.
  intros Hfetch Hprops Hperiods.
  rewrite (WeatherFacts.fetched_forecast_step3 _ _ _ _ _ Hfetch), Hprops.
  cbv beta iota delta [bind]. rewrite Hperiods. reflexivity.
Qed.

(** A period is formatted exactly when it has all six fields; a dict
    that lacks some raises [KeyError] for the first one it lacks. *)
Theorem format_period_needs_all_fields (items : list (string * value)) :
  ((exists text, format_period py_str (PDict items) = Ok text)
   <-> Forall (fun key => dict_get items key <> None) forecast_fields)
  /\ (forall e, format_period py_str (PDict items) = Raise e ->
       exists key, In key forecast_fields
                   /\ dict_get items key = None /\ e = KeyError key).
Proof.
  unfold format_period, getitem.
  destruct (dict_get items "name") eqn:E1; cbn [bind].
  2:{ split; [split|].
      - intros [text H]; discriminate.
      - intros H. rewrite Forall_forall in H. exfalso.
        apply (H "name"); [cbn; auto 10 | exact E1].
      - intros e [= <-]. exists "name". cbn. auto 10. }
  destruct (dict_get items "temperature") eqn:E2; cbn [bind].
  2:{ split; [split|].
      - intros [text H]; discriminate.
      - intros H. rewrite Forall_forall in H. exfalso.
        apply (H "temperature"); [cbn; auto 10 | exact E2].
      - intros e [= <-]. exists "temperature". cbn. auto 10. }
  destruct (dict_get items "temperatureUnit") eqn:E3; cbn [bind].
  2:{ split; [split|].
      - intros [text H]; discriminate.
      - intros H. rewrite Forall_forall in H. exfalso.
        apply (H "temperatureUnit"); [cbn; auto 10 | exact E3].
      - intros e [= <-]. exists "temperatureUnit". cbn. auto 10. }
  destruct (dict_get items "windSpeed") eqn:E4; cbn [bind].
  2:{ split; [split|].
      - intros [text H]; discriminate.
      - intros H. rewrite Forall_forall in H. exfalso.
        apply (H "windSpeed"); [cbn; auto 10 | exact E4].
      - intros e [= <-]. exists "windSpeed". cbn. auto 10. }
  destruct (dict_get items "windDirection") eqn:E5; cbn [bind].
  2:{ split; [split|].
      - intros [text H]; discriminate.
      - intros H. rewrite Forall_forall in H. exfalso.
        apply (H "windDirection"); [cbn; auto 10 | exact E5].
      - intros e [= <-]. exists "windDirection". cbn. auto 10. }
  destruct (dict_get items "detailedForecast") eqn:E6; cbn [bind].
  2:{ split; [split|].
      - intros [text H]; discriminate.
      - intros H. rewrite Forall_forall in H. exfalso.
        apply (H "detailedForecast"); [cbn; auto 10 | exact E6].
      - intros e [= <-]. exists "detailedForecast". cbn. auto 10. }
  split; [split|].
  - intros _. unfold forecast_fields. repeat constructor; congruence.
  - intros _. eexists. reflexivity.
  - intros e H. discriminate.
Qed.

(** One period among the first five that cannot be formatted makes the
    whole tool raise, with the exception of the first such period. *)
Theorem get_forecast_malformed_period
    (latitude longitude : float) (forecast_data properties : value)
    (periods done later : list value) (bad : value) (texts : list string) (e : exn) :
  fetched_forecast py_str http_get_json latitude longitude = Some forecast_data ->
  getitem forecast_data "properties" = Ok properties ->
  getitem properties "periods" = Ok (PList periods) ->
  firstn 5 periods = (done ++ bad :: later)%list ->
  formatted py_str done texts ->
  format_period py_str bad = Raise e ->
  get_forecast py_str http_get_json latitude longitude = Raise e.
Proof.
  intros Hfetch Hprops Hperiods Hfirst Hdone Hbad.
  rewrite (WeatherFacts.fetched_forecast_step3 _ _ _ _ _ Hfetch), Hprops.
  cbv beta iota delta [bind]. rewrite Hperiods.
  cbv beta iota delta [bind iter_slice5]. rewrite Hfirst.
  now rewrite (format_periods_raise done [] bad later e texts Hdone Hbad).
Qed.

(** *** Alerts *)

Lemma format_alert_block (feature : value) (items : list (string * value)) :
  getitem feature "properties" = Ok (PDict items) ->
  format_alert py_str feature = Ok (alert_block py_str items).
Proof.
  intros H. unfold format_alert. rewrite H. cbn [bind get_default].
  unfold alert_block, field_text.
  destruct (dict_get items "event"), (dict_get items "areaDesc"),
    (dict_get items "severity"), (dict_get items "description"),
    (dict_get items "instruction"); reflexivity.
Qed.

Lemma traverse_format_alert (features : list value) :
  forall props : list (list (string * value)),
    with_properties features props ->
    traverse (format_alert py_str) features = Ok (map (alert_block py_str) props).
Proof.
  induction features as [|f rest IH]; intros props H; inversion H; subst.
  - reflexivity.
  - cbn [traverse map]. erewrite format_alert_block by eassumption.
    cbn [bind]. erewrite IH by eassumption. reflexivity.
Qed.

Lemma traverse_raise {A B : Type} (f : A -> result B) (done : list A) :
  forall (ys : list B) (bad : A) (later : list A) (e : exn),
    Forall2 (fun x y => f x = Ok y) done ys ->
    f bad = Raise e ->
    traverse f (done ++ bad :: later) = Raise e.
Proof.
  induction done as [|d done IH]; intros ys bad later e HF HB.
  - cbn. now rewrite HB.
  - inversion HF as [|? y ? ys' Hd Hrest]; subst. cbn [app traverse].
    rewrite Hd. cbn [bind]. now erewrite IH by eassumption.
Qed.


(** With a [features] entry that is empty (an empty list, [null]) the
    tool says that no alert is active. *)
Theorem get_alerts_none_active (state : string)
    (items : list (string * value)) (features : value) :
  make_nws_request http_get_json 0 (PStr (alerts_url py_upper state)) = PDict items ->
  dict_get items "features" = Some features ->
  truthy features = false ->
  get_alerts py_str py_upper http_get_json state
  = Ok "No active alerts for this state.".
Proof.
  intros Hd Hf Ht. unfold get_alerts. cbv zeta. rewrite Hd.
  destruct items as [|item rest]; [discriminate|].
  cbn [truthy negb contains getitem]. rewrite Hf. cbn [bind negb].
  rewrite Ht. reflexivity.
Qed.

(** Every alert of the response is reported, however many there are, in
    the order of the response; a field that is absent is replaced by its
    fallback text and a field that is present is printed as it is. *)
Theorem get_alerts_reports_all (state : string)
    (items : list (string * value)) (feature : value) (features : list value)
    (props : list (list (string * value))) :
  make_nws_request http_get_json 0 (PStr (alerts_url py_upper state)) = PDict items ->
  dict_get items "features" = Some (PList (feature :: features)) ->
  with_properties (feature :: features) props ->
  get_alerts py_str py_upper http_get_json state
    = Ok (join (nl ++ "---" ++ nl) (map (alert_block py_str) props))
  /\ length props = S (length features).
Proof.
  intros Hd Hf Hp. split.
  - unfold get_alerts. cbv zeta. rewrite Hd.
    destruct items as [|item rest]; [discriminate|].
    cbn [truthy negb contains getitem]. rewrite Hf. cbn [bind negb truthy iterate].
    now rewrite (traverse_format_alert _ _ Hp).
  - symmetry. exact (Forall2_length Hp).
Qed.

(** One alert that cannot be formatted (a feature without [properties],
    say) makes the whole tool raise: no alert is reported. *)
Theorem get_alerts_malformed_feature (state : string)
    (items : list (string * value)) (done later : list value) (bad : value)
    (props : list (list (string * value))) (e : exn) :
  make_nws_request http_get_json 0 (PStr (alerts_url py_upper state)) = PDict items ->
  dict_get items "features" = Some (PList (done ++ bad :: later)) ->
  with_properties done props ->
  format_alert py_str bad = Raise e ->
  get_alerts py_str py_upper http_get_json state = Raise e.
Proof.
  intros Hd Hf Hp Hbad. unfold get_alerts. cbv zeta. rewrite Hd.
  destruct items as [|item rest]; [discriminate|].
  cbn [truthy negb contains getitem]. rewrite Hf. cbn [bind negb].
  assert (Ht : truthy (PList (done ++ bad :: later)) = true) by (now destruct done).
  rewrite Ht. cbn [negb iterate bind].
  rewrite (traverse_raise _ done (map (alert_block py_str) props) bad later e); auto.
  clear - Hp. induction Hp; cbn; constructor; auto.
  now apply format_alert_block.
Qed.

End WithWorld.


Lemma get_forecast_no_periods_sample :
  get_forecast Samples.sample_str (MoreSamples.forecast_http (PList []))
               Samples.latitude Samples.longitude = Ok "".
Proof.
  apply (get_forecast_no_periods Samples.sample_str (MoreSamples.forecast_http (PList []))
           Samples.latitude Samples.longitude
           (PDict [("properties", PDict [("periods", PList [])])])
           (PDict [("periods", PList [])])); reflexivity.
Defined.

Lemma format_period_needs_all_fields_sample :
  (exists text,
      format_period Samples.sample_str (Samples.period "Tonight" 55) = Ok text)
  /\ (exists key,
        In key forecast_fields
        /\ dict_get [("name", PStr "Thursday"); ("temperature", PInt 68);
                     ("temperatureUnit", PStr "F"); ("windSpeed", PStr "5 mph");
                     ("detailedForecast", PStr "Calm.")] key = None
        /\ KeyError "windDirection" = KeyError key).
Proof.
  split.
  - apply (proj1 (format_period_needs_all_fields Samples.sample_str _)).
    unfold forecast_fields. repeat constructor; discriminate.
  - apply (proj2 (format_period_needs_all_fields Samples.sample_str _)).
    reflexivity.
Defined.

Lemma get_forecast_malformed_period_sample :
  get_forecast Samples.sample_str
    (MoreSamples.forecast_http
       (PList [Samples.period "Tonight" 55; MoreSamples.windless; PNone]))
    Samples.latitude Samples.longitude
  = Raise (KeyError "windDirection").
Proof.
  apply (get_forecast_malformed_period Samples.sample_str _
           Samples.latitude Samples.longitude
           (PDict [("properties",
                    PDict [("periods",
                            PList [Samples.period "Tonight" 55; MoreSamples.windless;
                                   PNone])])])
           (PDict [("periods",
                    PList [Samples.period "Tonight" 55; MoreSamples.windless; PNone])])
           [Samples.period "Tonight" 55; MoreSamples.windless; PNone]
           [Samples.period "Tonight" 55] [PNone] MoreSamples.windless
           (match format_period Samples.sample_str (Samples.period "Tonight" 55) with
            | Ok text => [text]
            | Raise _ => []
            end)).
  - reflexivity.
  - reflexivity.
  - reflexivity.
  - reflexivity.
  - unfold formatted. repeat constructor.
  - reflexivity.
Defined.


Lemma get_alerts_none_active_sample :
  get_alerts Samples.sample_str MoreSamples.ascii_upper
             (MoreSamples.alerts_http (PList [])) "ca"
  = Ok "No active alerts for this state.".
Proof.
  apply (get_alerts_none_active Samples.sample_str MoreSamples.ascii_upper
           (MoreSamples.alerts_http (PList [])) "ca"
           [("type", PStr "FeatureCollection"); ("features", PList [])] (PList []));
    reflexivity.
Defined.

Lemma get_alerts_reports_all_sample :
  get_alerts Samples.sample_str MoreSamples.ascii_upper
             (MoreSamples.alerts_http
                (PList [MoreSamples.flood_warning; MoreSamples.bare_alert])) "ca"
    = Ok (join (nl ++ "---" ++ nl)
            (map (alert_block Samples.sample_str)
                 [[("event", PStr "Flood Warning"); ("areaDesc", PStr "Sacramento");
                   ("severity", PStr "Severe"); ("description", PStr "River rising.");
                   ("instruction", PStr "Move to higher ground.")];
                  [("description", PNone)]])).
Proof.
  refine (proj1 (get_alerts_reports_all Samples.sample_str MoreSamples.ascii_upper
           (MoreSamples.alerts_http
              (PList [MoreSamples.flood_warning; MoreSamples.bare_alert])) "ca"
           [("type", PStr "FeatureCollection");
            ("features", PList [MoreSamples.flood_warning; MoreSamples.bare_alert])]
           MoreSamples.flood_warning [MoreSamples.bare_alert]
           [[("event", PStr "Flood Warning"); ("areaDesc", PStr "Sacramento");
             ("severity", PStr "Severe"); ("description", PStr "River rising.");
             ("instruction", PStr "Move to higher ground.")];
            [("description", PNone)]] _ _ _)).
  - reflexivity.
  - reflexivity.
  - unfold with_properties. repeat constructor.
Defined.

(** The block of an alert that has only a [null] description: the four
    absent fields get their fallbacks, the [null] is printed as it is. *)
Example alert_block_bare :
  alert_block Samples.sample_str [("description", PNone)]
  = nl ++ "Event: Unknown" ++ nl
    ++ "Area: Unknown" ++ nl
    ++ "Severity: Unknown" ++ nl
    ++ "Description: None" ++ nl
    ++ "Instructions: No specific instructions provided" ++ nl.
Proof. reflexivity. Qed.

Lemma get_alerts_malformed_feature_sample :
  get_alerts Samples.sample_str MoreSamples.ascii_upper
             (MoreSamples.alerts_http (PList [MoreSamples.flood_warning; PDict []])) "ca"
  = Raise (KeyError "properties").
Proof.
  apply (get_alerts_malformed_feature Samples.sample_str MoreSamples.ascii_upper
           (MoreSamples.alerts_http (PList [MoreSamples.flood_warning; PDict []])) "ca"
           [("type", PStr "FeatureCollection");
            ("features", PList [MoreSamples.flood_warning; PDict []])]
           [MoreSamples.flood_warning] [] (PDict [])
           [[("event", PStr "Flood Warning"); ("areaDesc", PStr "Sacramento");
             ("severity", PStr "Severe"); ("description", PStr "River rising.");
             ("instruction", PStr "Move to higher ground.")]]).
  - reflexivity.
  - reflexivity.
  - unfold with_properties. repeat constructor.
  - reflexivity.
Defined.

End ForecastFacts.

(** ** More properties of the client *)

Module RunFacts.
Import Client Observe.

(** *** Connecting *)

(** A script that is neither [.py] nor [.js] is refused with [ValueError]
    before anything is started. *)
Theorem connect_to_server_rejects_extension
    (w : world) (h : list event) (path : string) :
  endswith path ".py" = false ->
  endswith path ".js" = false ->
  connect_to_server w h path
  = (h, Raise (ValueError "Server script must end in .py or .js")).
Proof. intros Hpy Hjs. unfold connect_to_server. now rewrite Hpy, Hjs. Qed.

(** A connect that returns has started the script with [python] when it
    ends in [.py] and with [node] otherwise, passed it as the only
    argument, then initialized the session, listed the tools and printed
    the names of exactly the tools listed, in this order. *)
Theorem connect_to_server_sequence (w : world) (h : list event) (path : string) :
  snd (connect_to_server w h path) = Ok tt ->
  let command := if endswith path ".py" then "python" else "node" in
  exists tools : list Tool.t,
    list_tools w (h ++ [StdioClient command [path]; Initialize])%list = Ok tools
    /\ fst (connect_to_server w h path)
       = (h ++ [StdioClient command [path]; Initialize; ListTools;
                PrintTools (map Tool.name tools)])%list.
Proof.
  unfold connect_to_server.
  destruct (endswith path ".py") eqn:Epy;
    [|destruct (endswith path ".js") eqn:Ejs; [|discriminate]];
    cbv zeta;
    (destruct (stdio_client w h _ [path]); [|discriminate]);
    (destruct (initialize w _); [|discriminate]);
    rewrite ClientFacts.app_two;
    (destruct (list_tools w _) as [tools|e] eqn:El; [|discriminate]);
    intros _; exists tools; (split; [reflexivity|]); cbn [fst];
    now rewrite <- !app_assoc.
Qed.

(** When the transport cannot be started nothing else is attempted, and
    when the handshake fails the tools are not listed: the exception
    leaves [connect_to_server] and nothing is printed. *)
Theorem connect_to_server_failure
    (w : world) (h : list event) (path : string) (e : exn) :
  endswith path ".py" = true \/ endswith path ".js" = true ->
  let command := if endswith path ".py" then "python" else "node" in
  (stdio_client w h command [path] = Raise e ->
   connect_to_server w h path = ((h ++ [StdioClient command [path]])%list, Raise e))
  /\ (stdio_client w h command [path] = Ok tt ->
      initialize w (h ++ [StdioClient command [path]])%list = Raise e ->
      connect_to_server w h path
      = ((h ++ [StdioClient command [path]; Initialize])%list, Raise e)).
Proof.
  intros Hext. unfold connect_to_server.
  destruct (endswith path ".py") eqn:Epy;
    [|destruct (endswith path ".js") eqn:Ejs;
      [|destruct Hext; discriminate]];
    cbv zeta; (split; [intros ->; reflexivity|]);
    intros -> ->; now rewrite ClientFacts.app_two.
Qed.

(** *** Failures of the tool and of the model inside a round *)

(** When [call_tool] raises, the exception leaves [process_query]: the
    call was issued, but no message is appended for it and nothing follows
    it; what the calls before it appended stays. *)
Theorem tool_exception_aborts_query
    (w : world) (h : list event) (query : string) (tools : list Tool.t)
    (m : ChatMessage.t) (others : list ChatMessage.t)
    (done later : list ToolCall.t) (bad : ToolCall.t)
    (args : value) (e : exn) (texts : list string) :
  list_tools w h = Ok tools ->
  chat_create w (h ++ [ListTools])%list gpt_4o [user_entry query]
              (Some (map openai_tool tools)) (Some "auto") = Ok (m :: others) ->
  ChatMessage.tool_calls m = Some (done ++ bad :: later)%list ->
  let before := tool_loop w done (h ++ [ListTools; first_request tools query])%list
                          [user_entry query] [] in
  outcome before = Ok texts ->
  json_loads w (Function.arguments (ToolCall.function bad)) = Ok args ->
  call_tool w (history before) (Function.name (ToolCall.function bad)) args = Raise e ->
  process_query w h query
    = {| history := (history before
                       ++ [CallTool (Function.name (ToolCall.function bad)) args])%list;
         messages := messages before;
         outcome := Raise e |}
  /\ answered_ids (messages (process_query w h query)) = map ToolCall.id done.
Proof.
  intros Hl Hc Ht before Hdone Hj Hcall.
  assert (Hne : (done ++ bad :: later)%list <> []) by (now destruct done).
  assert (Hrun : process_query w h query
                 = {| history := (history before
                                    ++ [CallTool (Function.name (ToolCall.function bad))
                                                 args])%list;
                      messages := messages before;
                      outcome := Raise e |}).
  { rewrite (ClientFacts.process_query_loop _ _ _ _ _ _ _ Hl Hc Ht Hne).
    rewrite (ClientFacts.tool_loop_app _ _ _ _ _ _ _ Hdone).
    cbn [tool_loop]. fold before. rewrite Hj, Hcall. reflexivity. }
  split; [exact Hrun|].
  destruct (ClientFacts.tool_loop_completed _ _ _ _ _ _ Hdone)
    as (steps & Hcalls & _ & Hm & _).
  rewrite Hrun. cbn [messages]. subst before. rewrite Hm.
  change ([user_entry query] ++ entries steps)%list
    with (user_entry query :: entries steps).
  rewrite ClientFacts.answered_ids_conversation. now rewrite Hcalls.
Qed.

(** When a follow-up model call raises, or returns no choice, the
    exception leaves [process_query] after the two messages of the tool
    call were appended; the remaining tool calls are not dispatched. *)
Theorem follow_up_exception_aborts_query
    (w : world) (h : list event) (query : string) (tools : list Tool.t)
    (m : ChatMessage.t) (others : list ChatMessage.t)
    (done later : list ToolCall.t) (last : ToolCall.t)
    (args : value) (r : CallToolResult.t) (e : exn) (texts : list string) :
  list_tools w h = Ok tools ->
  chat_create w (h ++ [ListTools])%list gpt_4o [user_entry query]
              (Some (map openai_tool tools)) (Some "auto") = Ok (m :: others) ->
  ChatMessage.tool_calls m = Some (done ++ last :: later)%list ->
  let before := tool_loop w done (h ++ [ListTools; first_request tools query])%list
                          [user_entry query] [] in
  let name := Function.name (ToolCall.function last) in
  let conversation :=
    (messages before ++ [assistant_entry last; tool_entry last r])%list in
  outcome before = Ok texts ->
  json_loads w (Function.arguments (ToolCall.function last)) = Ok args ->
  call_tool w (history before) name args = Ok r ->
  chat_create w (history before ++ [CallTool name args])%list gpt_4o conversation
              None None = Raise e
  \/ (chat_create w (history before ++ [CallTool name args])%list gpt_4o conversation
                  None None = Ok [] /\ e = IndexError) ->
  process_query w h query
    = {| history := (history before
                       ++ [CallTool name args; ChatCreate gpt_4o conversation None None])%list;
         messages := conversation;
         outcome := Raise e |}
  /\ answered_ids (messages (process_query w h query))
     = map ToolCall.id (done ++ [last])%list.
Proof.
  intros Hl Hc Ht before name conversation Hdone Hj Hcall Hfollow.
  assert (Hne : (done ++ last :: later)%list <> []) by (now destruct done).
  assert (Hrun : process_query w h query
                 = {| history := (history before
                                    ++ [CallTool name args;
                                        ChatCreate gpt_4o conversation None None])%list;
                      messages := conversation;
                      outcome := Raise e |}).
  { rewrite (ClientFacts.process_query_loop _ _ _ _ _ _ _ Hl Hc Ht Hne).
    rewrite (ClientFacts.tool_loop_app _ _ _ _ _ _ _ Hdone).
    cbn [tool_loop]. fold before. fold name. rewrite Hj, Hcall. fold conversation.
    rewrite ClientFacts.app_two.
    destruct Hfollow as [-> | [-> ->]]; reflexivity. }
  split; [exact Hrun|].
  destruct (ClientFacts.tool_loop_completed _ _ _ _ _ _ Hdone)
    as (steps & Hcalls & _ & Hm & _).
  rewrite Hrun. cbn [messages]. subst conversation before. rewrite Hm.
  change (([user_entry query] ++ entries steps)
            ++ [assistant_entry last; tool_entry last r])%list
    with (user_entry query
            :: (entries steps ++ [assistant_entry last; tool_entry last r]))%list.
  change [assistant_entry last; tool_entry last r]
    with (entries [{| step_call := last; step_args := args; step_result := r |}]).
  rewrite <- ClientFacts.entries_app, ClientFacts.answered_ids_conversation.
  rewrite !map_app, Hcalls. reflexivity.
Qed.

(** *** The answer *)

Lemma append_content_text (final_text : list string) (m : ChatMessage.t) :
  append_content final_text m = (final_text ++ response_text m)%list.
Proof.
  unfold append_content, response_text.
  destruct (ChatMessage.content m) as [text|]; [|now rewrite app_nil_r].
  destruct (text =? ""); [now rewrite app_nil_r | reflexivity].
Qed.

(** A loop that completes got one follow-up response per tool call: the
    response to pass [k] answers the model call at position [2k+1] of the
    events added, and the texts of the responses are what the loop
    collected. *)
Lemma tool_loop_responses (w : world) (tool_calls : list ToolCall.t) :
  forall (h : list event) (msgs : list value) (final_text texts : list string),
    outcome (tool_loop w tool_calls h msgs final_text) = Ok texts ->
    exists (events : list event) (responses : list ChatMessage.t),
      history (tool_loop w tool_calls h msgs final_text) = (h ++ events)%list
      /\ length responses = length tool_calls
      /\ texts = (final_text ++ flat_map response_text responses)%list
      /\ (forall (k : nat) (m : ChatMessage.t),
            nth_error responses k = Some m ->
            exists (conversation : list value) (others : list ChatMessage.t),
              nth_error events (2 * k + 1)
              = Some (ChatCreate gpt_4o conversation None None)
              /\ chat_create w (h ++ firstn (2 * k + 1) events)%list gpt_4o
                             conversation None None
                 = Ok (m :: others)).
Proof.
  induction tool_calls as [|tc rest IH]; intros h msgs final_text texts Hok.
  - cbn in Hok. injection Hok as <-. exists [], []. cbn.
    rewrite !app_nil_r. repeat split; auto.
    intros [|k] m; discriminate.
  - cbn [tool_loop] in *.
    destruct (json_loads w _) as [args|e]; [|discriminate].
    destruct (call_tool w h _ args) as [r|e]; [|discriminate].
    set (name := Function.name (ToolCall.function tc)) in *.
    set (msgs1 := (msgs ++ [assistant_entry tc; tool_entry tc r])%list) in *.
    destruct (chat_create w (h ++ [CallTool name args])%list gpt_4o msgs1 None None)
      as [[|m others]|e] eqn:Eg; try discriminate.
    destruct (IH _ _ _ _ Hok) as (events & responses & Hh & Hlen & Htexts & Hk).
    exists (CallTool name args :: ChatCreate gpt_4o msgs1 None None :: events),
           (m :: responses).
    repeat split.
    + rewrite Hh, <- !app_assoc. reflexivity.
    + cbn [length]. now rewrite Hlen.
    + rewrite Htexts, append_content_text, <- app_assoc. reflexivity.
    + intros [|k] m' Hm.
      * cbn in Hm. injection Hm as <-. exists msgs1, others.
        split; [reflexivity | exact Eg].
      * cbn [nth_error] in Hm.
        destruct (Hk k m' Hm) as (conversation & others' & H1 & H2).
        exists conversation, others'.
        replace (2 * S k + 1) with (S (S (2 * k + 1))) by lia.
        cbn [nth_error firstn]. split; [exact H1|].
        rewrite <- !app_assoc in H2. exact H2.
Qed.

(** When the first response asks for N tool calls and the query returns,
    the answer is the texts of the N follow-up responses, the absent and
    empty ones left out, joined by newlines in the order of the calls.
    The k-th of these responses is the first choice that the model gave to
    the k-th follow-up call, the event at position [3 + 2k] of the query,
    after the events before it. *)
Theorem answer_joins_follow_up_texts
    (w : world) (h : list event) (query : string) (m : ChatMessage.t)
    (tool_calls : list ToolCall.t) (text : string) :
  first_response w h query = Some m ->
  ChatMessage.tool_calls m = Some tool_calls ->
  tool_calls <> [] ->
  outcome (process_query w h query) = Ok text ->
  exists responses : list ChatMessage.t,
    length responses = length tool_calls
    /\ text = join nl (flat_map response_text responses)
    /\ (forall (k : nat) (response : ChatMessage.t),
          nth_error responses k = Some response ->
          exists (conversation : list value) (others : list ChatMessage.t),
            nth_error (since h (process_query w h query)) (3 + 2 * k)
            = Some (ChatCreate gpt_4o conversation None None)
            /\ chat_create w
                 (h ++ firstn (3 + 2 * k) (since h (process_query w h query)))%list
                 gpt_4o conversation None None
               = Ok (response :: others)).
Proof.
  intros Hf Ht Hne Hok.
  destruct (ClientFacts.first_response_tools _ _ _ _ Hf) as (tools & others & Hl & Hc).
  rewrite (ClientFacts.process_query_loop _ _ _ _ _ _ _ Hl Hc Ht Hne) in *.
  cbn [outcome history] in *.
  destruct (outcome (tool_loop w tool_calls _ _ _)) as [texts|e] eqn:Eo; [|discriminate].
  cbn [bind] in Hok. injection Hok as <-.
  destruct (tool_loop_responses _ _ _ _ _ _ Eo)
    as (events & responses & Hh & Hlen & -> & Hk).
  assert (Hsince : forall (A : Type) (msgs : list value) (o : result A),
             since h {| history := history (tool_loop w tool_calls
                                     (h ++ [ListTools; first_request tools query])%list
                                     [user_entry query] []);
                        messages := msgs; outcome := o |}
             = ListTools :: first_request tools query :: events).
  { intros A msgs o. apply ClientFacts.since_app. cbn [history].
    rewrite Hh, <- app_assoc. reflexivity. }
  rewrite Hsince.
  exists responses. repeat split; [exact Hlen|].
  intros k response Hr.
  destruct (Hk k response Hr) as (conversation & others' & H1 & H2).
  exists conversation, others'.
  replace (3 + 2 * k) with (S (S (2 * k + 1))) by lia.
  cbn [nth_error firstn]. split; [exact H1|].
  rewrite <- app_assoc in H2. exact H2.
Qed.

Lemma tool_loop_first_text_dropped (w : world) (tool_calls : list ToolCall.t) :
  forall (h : list event) (msgs : list value) (final_text : list string),
    tool_loop (first_text_dropped w) tool_calls h msgs final_text
    = tool_loop w tool_calls h msgs final_text.
Proof.
  induction tool_calls as [|tc rest IH]; intros h msgs final_text; [reflexivity|].
  cbn [tool_loop first_text_dropped json_loads call_tool chat_create].
  destruct (json_loads w _); [|reflexivity].
  destruct (call_tool w h _ _) as [r|e]; [|reflexivity].
  destruct (chat_create w _ gpt_4o _ None None) as [[|m others]|e]; try reflexivity.
  apply IH.
Qed.

(** A text that comes with the tool calls of the first response is not
    used: the run is the one of a world whose first response has the same
    tool calls and no text. *)
Theorem first_text_ignored_with_tool_calls
    (w : world) (h : list event) (query : string) (m : ChatMessage.t)
    (tool_call : ToolCall.t) (rest : list ToolCall.t) :
  first_response w h query = Some m ->
  ChatMessage.tool_calls m = Some (tool_call :: rest) ->
  process_query (first_text_dropped w) h query = process_query w h query.
Proof.
  intros Hf Ht.
  destruct (ClientFacts.first_response_tools _ _ _ _ Hf) as (tools & others & Hl & Hc).
  unfold process_query. cbv zeta.
  cbn [first_text_dropped list_tools chat_create].
  rewrite Hl, Hc. cbn [bind ChatMessage.tool_calls]. rewrite Ht.
  now rewrite tool_loop_first_text_dropped.
Qed.

(** *** What is sent to the model *)

Lemma conversations_app (e1 e2 : list event) :
  conversations (e1 ++ e2) = (conversations e1 ++ conversations e2)%list.
Proof. unfold conversations. now rewrite flat_map_app. Qed.

Lemma round_events_conversations (steps : list step) :
  forall msgs : list value,
    Forall (fun conversation =>
              exists done later,
                conversation = (msgs ++ done)%list
                /\ entries steps = (done ++ later)%list)
           (conversations (round_events msgs steps)).
Proof.
  induction steps as [|s rest IH]; intros msgs; [constructor|].
  cbn [round_events].
  change (conversations (CallTool ?n ?a :: ChatCreate gpt_4o ?c None None :: ?r))
    with (c :: conversations r).
  set (pair := [assistant_entry (step_call s); tool_entry (step_call s) (step_result s)]).
  change (conversations
            (CallTool (Function.name (ToolCall.function (step_call s))) (step_args s)
               :: ChatCreate gpt_4o (msgs ++ pair)%list None None
               :: round_events (msgs ++ pair)%list rest))
    with ((msgs ++ pair)%list :: conversations (round_events (msgs ++ pair)%list rest)).
  constructor.
  - exists pair, (entries rest). split; reflexivity.
  - eapply Forall_impl; [|apply IH].
    intros c (done & later & -> & Hrest).
    exists (pair ++ done)%list, later. split.
    + now rewrite app_assoc.
    + change (entries (s :: rest)) with (pair ++ entries rest)%list.
      rewrite Hrest. now rewrite app_assoc.
Qed.

(** The conversation of a query only grows: what is sent with each model
    call begins with the user's message and is the beginning of what is
    sent with the later calls and of the final conversation; and the query
    adds to the history it was given without touching it. *)
Theorem conversation_only_grows (w : world) (h : list event) (query : string) :
  Forall (fun conversation =>
            hd_error conversation = Some (user_entry query)
            /\ exists later,
                 messages (process_query w h query) = (conversation ++ later)%list)
         (conversations (since h (process_query w h query)))
  /\ hd_error (messages (process_query w h query)) = Some (user_entry query)
  /\ history (process_query w h query)
     = (h ++ since h (process_query w h query))%list.
Proof.
  destruct (ClientFacts.process_query_shape w h query)
    as (steps & pre & tail & Hm & Hh & Hpre & Htail).
  rewrite (ClientFacts.since_app h _ _ Hh), Hm.
  repeat split; [|exact Hh].
  change (ListTools :: pre ++ round_events [user_entry query] steps ++ tail)%list
    with ([ListTools] ++ pre ++ round_events [user_entry query] steps ++ tail)%list.
  rewrite !conversations_app.
  apply Forall_app. split; [constructor|].
  apply Forall_app. split.
  - destruct Hpre as [-> | (tools & ->)]; [constructor|].
    repeat constructor. now exists (entries steps).
  - apply Forall_app. split.
    + eapply Forall_impl; [|apply round_events_conversations].
      intros c (done & later & -> & Hsteps). split; [reflexivity|].
      exists later. rewrite Hsteps. reflexivity.
    + destruct Htail as [-> | (name & args & ->)]; constructor.
Qed.

Lemma round_events_bare (steps : list step) :
  forall msgs : list value,
    forallb is_bare_create (filter is_chat_create (round_events msgs steps)) = true.
Proof.
  induction steps as [|s rest IH]; intros msgs; [reflexivity|].
  cbn [round_events filter is_chat_create forallb is_bare_create].
  rewrite IH. reflexivity.
Qed.

Lemma forallb_tl {A : Type} (f : A -> bool) (l : list A) :
  forallb f l = true -> forallb f (tl l) = true.
Proof.
  destruct l as [|x rest]; [auto|]. cbn. intros H.
  now apply andb_true_iff in H as [_ H].
Qed.

(** Only the first model call of a query offers tools: every follow-up
    call goes to the same model without tool schemas and without a tool
    choice, so a follow-up response cannot start another round. *)
Theorem follow_ups_offer_no_tools (w : world) (h : list event) (query : string) :
  forallb is_bare_create (follow_ups (since h (process_query w h query))) = true.
Proof.
  destruct (ClientFacts.process_query_shape w h query)
    as (steps & pre & tail & _ & Hh & Hpre & Htail).
  rewrite (ClientFacts.since_app h _ _ Hh). unfold follow_ups.
  assert (Htail' : filter is_chat_create tail = [])
    by (destruct Htail as [-> | (name & args & ->)]; reflexivity).
  destruct Hpre as [-> | (tools & ->)].
  - cbn [app filter is_chat_create]. rewrite filter_app, Htail', app_nil_r.
    apply forallb_tl, round_events_bare.
  - cbn [app filter is_chat_create first_request tl].
    rewrite filter_app, Htail', app_nil_r. apply round_events_bare.
Qed.

(** *** What is dispatched *)

Lemma dispatched_names_app (e1 e2 : list event) :
  dispatched_names (e1 ++ e2) = (dispatched_names e1 ++ dispatched_names e2)%list.
Proof. unfold dispatched_names. now rewrite flat_map_app. Qed.

Lemma tool_loop_dispatched (w : world) (tool_calls : list ToolCall.t) :
  forall (h : list event) (msgs : list value) (final_text : list string),
  exists (events : list event) (n : nat),
    history (tool_loop w tool_calls h msgs final_text) = (h ++ events)%list
    /\ dispatched_names events
       = firstn n (map (fun tc => Function.name (ToolCall.function tc)) tool_calls).
Proof.
  induction tool_calls as [|tc rest IH]; intros h msgs final_text.
  - exists [], 0. cbn. now rewrite app_nil_r.
  - cbn [tool_loop].
    destruct (json_loads w _) as [args|e].
    2:{ exists [], 0. cbn. now rewrite app_nil_r. }
    destruct (call_tool w h _ args) as [r|e].
    2:{ exists [CallTool (Function.name (ToolCall.function tc)) args], 1. split; reflexivity. }
    set (msgs1 := (msgs ++ [assistant_entry tc; tool_entry tc r])%list).
    set (name := Function.name (ToolCall.function tc)).
    assert (Hstop : exists (events : list event) (n : nat),
               ((h ++ [CallTool name args]) ++ [ChatCreate gpt_4o msgs1 None None])%list
               = (h ++ events)%list
               /\ dispatched_names events
                  = firstn n (name :: map (fun tc => Function.name (ToolCall.function tc))
                                          rest)).
    { exists [CallTool name args; ChatCreate gpt_4o msgs1 None None], 1.
      split; [now rewrite ClientFacts.app_two | reflexivity]. }
    destruct (chat_create w _ gpt_4o msgs1 None None) as [[|m others]|e];
      cbn [history map]; try exact Hstop.
    destruct (IH ((h ++ [CallTool name args]) ++ [ChatCreate gpt_4o msgs1 None None])%list
                 msgs1 (append_content final_text m))
      as (events & n & -> & Hnames).
    exists ([CallTool name args; ChatCreate gpt_4o msgs1 None None] ++ events)%list, (S n).
    split.
    + now rewrite ClientFacts.app_two, <- app_assoc.
    + rewrite dispatched_names_app. cbn [firstn]. rewrite <- Hnames. reflexivity.
Qed.

(** The tools dispatched by a query are the tools that its first response
    asked for, or the first few of them, in the order asked: nothing else
    is ever called, and nothing at all when no tool call was asked for. *)
Theorem dispatches_follow_requests (w : world) (h : list event) (query : string) :
  exists n : nat,
    dispatched_names (since h (process_query w h query))
    = firstn n (map (fun tc => Function.name (ToolCall.function tc))
                    (requested_calls w h query)).
Proof.
  unfold requested_calls, first_response, process_query. cbv zeta.
  destruct (list_tools w h) as [tools|e].
  2:{ exists 0. rewrite (ClientFacts.since_app h [ListTools]); reflexivity. }
  rewrite !ClientFacts.app_two. fold (first_request tools query).
  assert (Hplain : forall (A : Type) (o : result A) (calls : list ToolCall.t),
             exists n : nat,
               dispatched_names
                 (since h {| history := (h ++ [ListTools; first_request tools query])%list;
                             messages := [user_entry query]; outcome := o |})
               = firstn n (map (fun tc => Function.name (ToolCall.function tc)) calls)).
  { intros A o calls. exists 0.
    rewrite (ClientFacts.since_app h [ListTools; first_request tools query]); reflexivity. }
  unfold first_request at 1 2.
  destruct (chat_create w _ gpt_4o _ _ _) as [[|m others]|e]; try apply Hplain.
  destruct (ChatMessage.tool_calls m) as [[|tc rest]|]; try apply Hplain.
  destruct (tool_loop_dispatched w (tc :: rest)
              (h ++ [ListTools; first_request tools query])%list [user_entry query] [])
    as (events & n & Hh & Hnames).
  exists n.
  rewrite (ClientFacts.since_app h ([ListTools; first_request tools query] ++ events)%list)
    by (cbn [history]; rewrite Hh, <- app_assoc; reflexivity).
  rewrite dispatched_names_app. exact Hnames.
Qed.

(** *** Sample runs *)

Lemma connect_to_server_rejects_extension_sample :
  connect_to_server Samples.one_call [] "server.rb"
  = ([], Raise (ValueError "Server script must end in .py or .js")).
Proof.
  apply (connect_to_server_rejects_extension Samples.one_call [] "server.rb");
    reflexivity.
Defined.

Lemma connect_to_server_sequence_sample :
  exists tools : list Tool.t,
    list_tools Samples.one_call [StdioClient "node" ["weather.js"]; Initialize] = Ok tools
    /\ fst (connect_to_server Samples.one_call [] "weather.js")
       = [StdioClient "node" ["weather.js"]; Initialize; ListTools;
          PrintTools (map Tool.name tools)].
Proof.
  apply (connect_to_server_sequence Samples.one_call [] "weather.js"). reflexivity.
Defined.

Lemma connect_to_server_failure_sample :
  connect_to_server MoreSamples.no_server [] "weather.py"
  = ([StdioClient "python" ["weather.py"]], Raise (OtherError "FileNotFoundError")).
Proof.
  apply (proj1 (connect_to_server_failure MoreSamples.no_server [] "weather.py"
                  (OtherError "FileNotFoundError") (or_introl eq_refl))).
  reflexivity.
Defined.

Lemma tool_exception_aborts_query_sample :
  outcome (process_query MoreSamples.broken_tool [] Samples.question)
    = Raise (OtherError "McpError")
  /\ answered_ids (messages (process_query MoreSamples.broken_tool [] Samples.question))
     = [].
Proof.
  destruct (tool_exception_aborts_query MoreSamples.broken_tool [] Samples.question
              [Samples.get_alerts_tool]
              (Samples.asks [Samples.call_CA; Samples.call_NY]) []
              [] [Samples.call_NY] Samples.call_CA
              (PDict [("state", PStr "CA")]) (OtherError "McpError") [])
    as [Hrun Hids].
  - reflexivity.
  - reflexivity.
  - reflexivity.
  - reflexivity.
  - reflexivity.
  - reflexivity.
  - split; [rewrite Hrun; reflexivity | exact Hids].
Defined.

Lemma follow_up_exception_aborts_query_sample :
  outcome (process_query MoreSamples.broken_follow_up [] Samples.question)
    = Raise (OtherError "RateLimitError")
  /\ answered_ids
       (messages (process_query MoreSamples.broken_follow_up [] Samples.question))
     = ["call_1"].
Proof.
  destruct (follow_up_exception_aborts_query MoreSamples.broken_follow_up []
              Samples.question [Samples.get_alerts_tool]
              (Samples.asks [Samples.call_CA; Samples.call_NY]) []
              [] [Samples.call_NY] Samples.call_CA
              (PDict [("state", PStr "CA")]) Samples.no_alerts
              (OtherError "RateLimitError") [])
    as [Hrun Hids].
  - reflexivity.
  - reflexivity.
  - reflexivity.
  - reflexivity.
  - reflexivity.
  - reflexivity.
  - left. reflexivity.
  - split; [rewrite Hrun; reflexivity | exact Hids].
Defined.

Lemma answer_joins_follow_up_texts_sample :
  exists responses : list ChatMessage.t,
    length responses = 2
    /\ "No alerts in CA." ++ nl ++ "No alerts in NY."
       = join nl (flat_map response_text responses)
    /\ (forall (k : nat) (response : ChatMessage.t),
          nth_error responses k = Some response ->
          exists (conversation : list value) (others : list ChatMessage.t),
            nth_error (since [] (process_query Samples.two_calls [] Samples.question))
                      (3 + 2 * k)
            = Some (ChatCreate gpt_4o conversation None None)
            /\ chat_create Samples.two_calls
                 ([] ++ firstn (3 + 2 * k)
                          (since [] (process_query Samples.two_calls [] Samples.question)))%list
                 gpt_4o conversation None None
               = Ok (response :: others)).
Proof.
  apply (answer_joins_follow_up_texts Samples.two_calls [] Samples.question
           (Samples.asks [Samples.call_CA; Samples.call_NY])
           [Samples.call_CA; Samples.call_NY]
           ("No alerts in CA." ++ nl ++ "No alerts in NY.")).
  - reflexivity.
  - reflexivity.
  - discriminate.
  - reflexivity.
Defined.

Lemma first_text_ignored_with_tool_calls_sample :
  process_query (first_text_dropped MoreSamples.chatty) [] Samples.question
  = process_query MoreSamples.chatty [] Samples.question.
Proof.
  apply (first_text_ignored_with_tool_calls MoreSamples.chatty [] Samples.question
           {| ChatMessage.content := Some "Let me look that up.";
              ChatMessage.tool_calls := Some [Samples.call_CA; Samples.call_NY] |}
           Samples.call_CA [Samples.call_NY]); reflexivity.
Defined.

(** The text that came with the tool calls is not in the answer. *)
Example chatty_answer :
  outcome (process_query MoreSamples.chatty [] Samples.question)
  = Ok ("No alerts in CA." ++ nl ++ "No alerts in NY.").
Proof. reflexivity. Qed.

End RunFacts.

(** ** Properties of the chat loop and of the entry point *)

Module ChatFacts.
Import Client Chat.

Section WithInput.

Variable py_strip : string -> string.
Variable py_lower : string -> string.

Lemma chat_loop_from_queries (w : world) (asked : list string) :
  forall (rest : list string) (h : list event) (out : list printed),
    Forall (fun line => is_quit py_strip py_lower line = false) asked ->
    all_caught w (map py_strip asked) h = true ->
    chat_loop_from py_strip py_lower w (asked ++ rest) h out
    = chat_loop_from py_strip py_lower w rest
        (after_queries w (map py_strip asked) h)
        (out ++ replies w (map py_strip asked) h)%list.
Proof.
  induction asked as [|line more IH]; intros rest h out Hnot Hcaught.
  - cbn. now rewrite app_nil_r.
  - inversion Hnot as [|? ? Hline Hmore]; subst.
    cbn [app chat_loop_from map after_queries replies all_caught] in *.
    unfold is_quit in Hline. rewrite Hline. cbv zeta.
    apply andb_true_iff in Hcaught as [Hthis Hlater].
    destruct (outcome (process_query w h (py_strip line))) as [response|e];
      cbn [reply]; [|rewrite Hthis];
      rewrite (IH _ _ _ Hmore Hlater), <- app_assoc; reflexivity.
Qed.

Lemma replies_length (w : world) (queries : list string) :
  forall h : list event, length (replies w queries h) = length queries.
Proof.
  induction queries as [|q rest IH]; intros h; [reflexivity|].
  cbn [replies length]. now rewrite IH.
Qed.

(** The loop ends at the first line that is [quit] once stripped and put
    in lower case, when every query before it returned or raised an
    exception that [except Exception] catches.  Every line before it was
    then answered, by the response or by the exception of its query, which
    does not end the loop; each query starts from the history the one
    before left; the lines after [quit] are not read. *)
Theorem chat_loop_until_quit
    (w : world) (h : list event) (asked rest : list string) (last : string) :
  Forall (fun line => is_quit py_strip py_lower line = false) asked ->
  all_caught w (map py_strip asked) h = true ->
  is_quit py_strip py_lower last = true ->
  chat_loop py_strip py_lower w h (asked ++ last :: rest)
    = {| s_history := after_queries w (map py_strip asked) h;
         s_printed := ([SayStarted; SayHint] ++ replies w (map py_strip asked) h)%list;
         s_outcome := Ok tt |}
  /\ length (replies w (map py_strip asked) h) = length asked.
Proof.
  intros Hnot Hcaught Hquit. split.
  - unfold chat_loop. rewrite (chat_loop_from_queries _ _ _ _ _ Hnot Hcaught).
    cbn [chat_loop_from]. unfold is_quit in Hquit. now rewrite Hquit.
  - now rewrite replies_length, length_map.
Qed.

(** When the input ends without a [quit] and every query returned or
    raised an exception that [except Exception] catches, every line was
    answered and [EOFError] leaves the loop. *)
Theorem chat_loop_end_of_input
    (w : world) (h : list event) (asked : list string) :
  Forall (fun line => is_quit py_strip py_lower line = false) asked ->
  all_caught w (map py_strip asked) h = true ->
  chat_loop py_strip py_lower w h asked
  = {| s_history := after_queries w (map py_strip asked) h;
       s_printed := ([SayStarted; SayHint] ++ replies w (map py_strip asked) h)%list;
       s_outcome := Raise EOFError |}.
Proof.
  intros Hnot Hcaught. unfold chat_loop.
  rewrite <- (app_nil_r asked) at 1.
  now rewrite (chat_loop_from_queries _ _ _ _ _ Hnot Hcaught).
Qed.

(** A query that raises an exception which [except Exception] does not
    catch (a cancelled task, a keyboard interrupt) ends the loop with that
    exception: it is not printed, and no later line is read. *)
Theorem chat_loop_uncaught_exception
    (w : world) (h : list event) (asked rest : list string) (line : string) (e : exn) :
  Forall (fun line => is_quit py_strip py_lower line = false) asked ->
  all_caught w (map py_strip asked) h = true ->
  is_quit py_strip py_lower line = false ->
  outcome (process_query w (after_queries w (map py_strip asked) h) (py_strip line))
    = Raise e ->
  is_exception e = false ->
  chat_loop py_strip py_lower w h (asked ++ line :: rest)
  = {| s_history :=
         history (process_query w (after_queries w (map py_strip asked) h)
                                (py_strip line));
       s_printed := ([SayStarted; SayHint] ++ replies w (map py_strip asked) h)%list;
       s_outcome := Raise e |}.
Proof.
  intros Hnot Hcaught Hline Hraise Hbase. unfold chat_loop.
  rewrite (chat_loop_from_queries _ _ _ _ _ Hnot Hcaught).
  cbn [chat_loop_from]. unfold is_quit in Hline. rewrite Hline. cbv zeta.
  now rewrite Hraise, Hbase.
Qed.

Lemma process_query_list_tools_once (w : world) (h : list event) (query : string) :
  exists events,
    history (process_query w h query) = (h ++ events)%list
    /\ count is_list_tools events = 1.
Proof.
  destruct (ClientFacts.process_query_shape w h query)
    as (steps & pre & tail & _ & Hh & Hpre & Htail).
  eexists. split; [exact Hh|].
  change (ListTools :: pre ++ round_events [user_entry query] steps ++ tail)%list
    with ([ListTools] ++ pre ++ round_events [user_entry query] steps ++ tail)%list.
  rewrite !ClientFacts.count_app, ClientFacts.round_events_list_tools.
  destruct Hpre as [-> | (tools & ->)], Htail as [-> | (name & args & ->)]; reflexivity.
Qed.

(** The tool list is fetched once per query asked: after [n] queries the
    history has grown by exactly [n] [list_tools] calls. *)
Theorem queries_fetch_tools_each_time (w : world) (queries : list string) :
  forall h : list event,
  exists events,
    after_queries w queries h = (h ++ events)%list
    /\ count is_list_tools events = length queries.
Proof.
  induction queries as [|q rest IH]; intros h.
  - exists []. cbn. now rewrite app_nil_r.
  - cbn [after_queries].
    destruct (process_query_list_tools_once w h q) as (first & Hh & Hone).
    destruct (IH (history (process_query w h q))) as (more & -> & Hmore).
    exists (first ++ more)%list. rewrite Hh, <- app_assoc. split; [reflexivity|].
    rewrite ClientFacts.count_app, Hone, Hmore. reflexivity.
Qed.


(** Only the first argument is used: further server scripts on the command
    line, which the usage text invites, change nothing. *)
Theorem main_ignores_further_arguments
    (w : world) (program path : string) (further lines : list string) :
  main py_strip py_lower w (program :: path :: further) lines
  = main py_strip py_lower w [program; path] lines.
Proof. reflexivity. Qed.

(** When connecting fails, the chat loop is not entered: no line is read,
    nothing but what connecting did is in the history, and the exception
    ends the program after [cleanup]. *)
Theorem main_connect_failure
    (w : world) (program path : string) (further lines : list string) (e : exn) :
  snd (connect_to_server w [] path) = Raise e ->
  main py_strip py_lower w (program :: path :: further) lines
  = {| p_history := fst (connect_to_server w [] path);
       p_printed := [];
       p_cleanups := 1;
       p_ending := Uncaught e |}.
Proof.
  unfold main. cbn [length Nat.ltb Nat.leb nth].
  destruct (connect_to_server w [] path) as [h [u|e']]; cbn [fst snd].
  - discriminate.
  - now intros [= ->].
Qed.

End WithInput.

Lemma chat_loop_until_quit_sample :
  chat_loop MoreSamples.ascii_strip MoreSamples.ascii_lower Samples.plain_answer []
            ["  hello "; " Quit"; "never read"]
  = {| s_history :=
         after_queries Samples.plain_answer
           (map MoreSamples.ascii_strip ["  hello "]) [];
       s_printed :=
         ([SayStarted; SayHint]
            ++ replies Samples.plain_answer (map MoreSamples.ascii_strip ["  hello "]) [])%list;
       s_outcome := Ok tt |}.
Proof.
  refine (proj1 (chat_loop_until_quit MoreSamples.ascii_strip MoreSamples.ascii_lower
                   Samples.plain_answer [] ["  hello "] ["never read"] " Quit" _ _ _)).
  - repeat constructor.
  - reflexivity.
  - reflexivity.
Defined.

(** What the sample session prints, and what it sends as the query. *)
Example chat_loop_sample_output :
  s_printed (chat_loop MoreSamples.ascii_strip MoreSamples.ascii_lower
                       Samples.plain_answer [] ["  hello "; " Quit"; "never read"])
  = [SayStarted; SayHint; SayAssistant "Hello!"]
  /\ Observe.conversations
       (s_history (chat_loop MoreSamples.ascii_strip MoreSamples.ascii_lower
                             Samples.plain_answer [] ["  hello "; " Quit"; "never read"]))
     = [[user_entry "hello"]].
Proof. split; reflexivity. Qed.

Lemma chat_loop_end_of_input_sample :
  s_outcome (chat_loop MoreSamples.ascii_strip MoreSamples.ascii_lower
                       Samples.bad_first [] ["alerts?"; "again?"])
    = Raise PyMore.EOFError
  /\ s_printed (chat_loop MoreSamples.ascii_strip MoreSamples.ascii_lower
                          Samples.bad_first [] ["alerts?"; "again?"])
     = [SayStarted; SayHint; SayError JSONDecodeError; SayError JSONDecodeError].
Proof.
  rewrite (chat_loop_end_of_input MoreSamples.ascii_strip MoreSamples.ascii_lower
             Samples.bad_first [] ["alerts?"; "again?"]).
  - split; reflexivity.
  - repeat constructor.
  - reflexivity.
Defined.

Lemma chat_loop_uncaught_exception_sample :
  chat_loop MoreSamples.ascii_strip MoreSamples.ascii_lower MoreSamples.cancelled []
            ["alerts?"; "quit"]
  = {| s_history :=
         [ListTools;
          first_request [Samples.get_alerts_tool] "alerts?"];
       s_printed := [SayStarted; SayHint];
       s_outcome := Raise (OtherError "CancelledError") |}.
Proof.
  apply (chat_loop_uncaught_exception MoreSamples.ascii_strip MoreSamples.ascii_lower
           MoreSamples.cancelled [] [] ["quit"] "alerts?"
           (OtherError "CancelledError")).
  - constructor.
  - reflexivity.
  - reflexivity.
  - reflexivity.
  - reflexivity.
Defined.


Lemma main_connect_failure_sample :
  main MoreSamples.ascii_strip MoreSamples.ascii_lower Samples.one_call
       ["client.py"; "server.rb"] ["hello"; "quit"]
  = {| p_history := [];
       p_printed := [];
       p_cleanups := 1;
       p_ending := Uncaught (ValueError "Server script must end in .py or .js") |}.
Proof.
  apply (main_connect_failure MoreSamples.ascii_strip MoreSamples.ascii_lower
           Samples.one_call "client.py" "server.rb" [] ["hello"; "quit"]
           (ValueError "Server script must end in .py or .js")).
  reflexivity.
Defined.

End ChatFacts.
